(** * ci-lark-notification: a shallow embedding of [main.go]

    The plugin reads the pipeline's environment, builds either a text
    message or an interactive card, optionally signs it, and posts it to
    a Lark webhook.  This file embeds [main.go] function by function and
    proves the properties of the specification against that embedding.

    Conventions.
    - A Go [string] is a sequence of bytes: Rocq's [string] (a list of
      [ascii], one per byte).  Non-ASCII literals of the source are
      written byte by byte.
    - The process environment is a finite map [gmap string string];
      [os.Getenv] returns the empty string for an absent key.
    - A value of static type [any] is a tree [any]; a [map[string]any]
      is a [gmap string any], a [[]map[string]any] a list of such maps.
    - A function that can panic or call [os.Exit] returns in [run].
    - Output on standard output ([fmt.Println], [fmt.Printf],
      [printBuildInfo], [printDebugInfo]) is not part of the model. *)

From Stdlib Require Import ZArith Floats DecimalString Ascii Lia.
From stdpp Require Import base strings list gmap.

Set Warnings "-register-all".
#[local] Open Scope Z_scope.

(** ** Outcomes of a run *)

(** A Go call returns, leaves the process through [os.Exit], or panics. *)
Inductive run (A : Type) : Type :=
  | Ret (a : A)
  | Exit (code : Z)
  | Panic (why : string).
Arguments Ret {A} a.
Arguments Exit {A} code.
Arguments Panic {A} why.

#[global] Instance run_ret : MRet run := fun A a => Ret a.
#[global] Instance run_bind : MBind run := fun A B f m =>
  match m with
  | Ret a => f a
  | Exit c => Exit c
  | Panic w => Panic w
  end.

(** ** The parts of Go's runtime and library that [main.go] uses *)

Module Go.

(** The byte value of a character. *)
Definition byte (c : ascii) : N := N_of_ascii c.

Definition bytes_string (l : list N) : string :=
  String.string_of_list_ascii (ascii_of_N <$> l).

(** ["\n"]. *)
Definition LF : string := String "010"%char "".

(** [s[:n]]: the first [n] bytes; a run-time panic when [n > len(s)]. *)
Fixpoint take_bytes (n : nat) (s : string) : string :=
  match n, s with
  | S n', String c s' => String c (take_bytes n' s')
  | _, _ => ""
  end.

Definition slice_to (s : string) (n : nat) : run string :=
  if decide (n ≤ String.length s)%nat then Ret (take_bytes n s)
  else Panic "slice bounds out of range".

(** [l[i]] on a slice: a run-time panic when [i] is out of range. *)
Definition index {A} (l : list A) (i : nat) : run A :=
  match l !! i with
  | Some a => Ret a
  | None => Panic "index out of range"
  end.

(** [strings.HasPrefix]. *)
Fixpoint HasPrefix (s prefix : string) {struct prefix} : bool :=
  match prefix, s with
  | "", _ => true
  | String p prefix', String c s' => Ascii.eqb p c && HasPrefix s' prefix'
  | String _ _, "" => false
  end.

(** [strings.Contains]: [substr] occurs somewhere in [s]. *)
Fixpoint Contains (s substr : string) : bool :=
  HasPrefix s substr ||
  match s with
  | "" => false
  | String _ s' => Contains s' substr
  end.

(** [strings.Split(s, sep)] for a non-empty [sep]: the pieces of [s]
    between the occurrences of [sep], found left to right.  [cur] is the
    piece being read (reversed), [skip] the number of bytes of a
    separator still to pass.  (With an empty [sep] Go splits into UTF-8
    sequences; [main.go] only splits on ["\n"] and [","].) *)
Fixpoint genSplit (sep : string) (skip : nat) (cur : string) (s : string)
    : list string :=
  match s with
  | "" => [String.rev cur]
  | String c s' =>
      match skip with
      | S k => genSplit sep k cur s'
      | O =>
          if HasPrefix s sep
          then String.rev cur :: genSplit sep (String.length sep - 1) "" s'
          else genSplit sep O (String c cur) s'
      end
  end.

Definition Split (s sep : string) : list string := genSplit sep O "" s.

(** White space as [strings.TrimSpace] sees it: the six ASCII spaces and
    the UTF-8 encodings of the other code points with Unicode's
    White_Space property. *)
Definition asciiSpace (c : ascii) : bool :=
  let n := byte c in
  (n =? 9)%N || (n =? 10)%N || (n =? 11)%N || (n =? 12)%N || (n =? 13)%N
  || (n =? 32)%N.

(** U+0085 and U+00A0. *)
Definition space2 (c d : ascii) : bool :=
  (byte c =? 194)%N && ((byte d =? 133)%N || (byte d =? 160)%N).

(** U+1680, U+2000..U+200A, U+2028, U+2029, U+202F, U+205F, U+3000. *)
Definition space3 (c d e : ascii) : bool :=
  let '(c, d, e) := (byte c, byte d, byte e) in
  ((c =? 225)%N && (d =? 154)%N && (e =? 128)%N)
  || ((c =? 226)%N && (d =? 128)%N &&
      (((128 <=? e)%N && (e <=? 138)%N) || (e =? 168)%N || (e =? 169)%N
       || (e =? 175)%N))
  || ((c =? 226)%N && (d =? 129)%N && (e =? 159)%N)
  || ((c =? 227)%N && (d =? 128)%N && (e =? 128)%N).

Fixpoint trimLeft (s : string) : string :=
  match s with
  | String c r =>
      if asciiSpace c then trimLeft r
      else match r with
           | String d r2 =>
               if space2 c d then trimLeft r2
               else match r2 with
                    | String e r3 => if space3 c d e then trimLeft r3 else s
                    | "" => s
                    end
           | "" => s
           end
  | "" => ""
  end.

(** The same scan from the end, on the reversed string. *)
Fixpoint trimLeftRev (s : string) : string :=
  match s with
  | String e r =>
      if asciiSpace e then trimLeftRev r
      else match r with
           | String d r2 =>
               if space2 d e then trimLeftRev r2
               else match r2 with
                    | String c r3 =>
                        if space3 c d e then trimLeftRev r3 else s
                    | "" => s
                    end
           | "" => s
           end
  | "" => ""
  end.

Definition trimRight (s : string) : string :=
  String.rev (trimLeftRev (String.rev s)).

(** [strings.TrimSpace]. *)
Definition TrimSpace (s : string) : string := trimRight (trimLeft s).

(** [strconv.FormatInt(i, 10)]. *)
Definition FormatInt (i : Z) : string := NilZero.string_of_int (Z.to_int i).

End Go.

(** ** The environment *)

Abbreviation environ := (gmap string string).

(** [os.Getenv]. *)
Definition Getenv (env : environ) (key : string) : string :=
  default "" (env !! key).

(** [getEnvOrDefault], main.go 325-330. *)
Definition getEnvOrDefault (env : environ) (key defaultValue : string)
    : string :=
  let value := Getenv env key in
  if decide (value ≠ "") then value else defaultValue.

(** [getProjectVersion], main.go 74-82. *)
Definition getProjectVersion (env : environ) : run string :=
  let tag := getEnvOrDefault env "CI_COMMIT_TAG" "" in
  if decide (tag ≠ "") then Ret tag
  else
    let sha := getEnvOrDefault env "CI_COMMIT_SHA" "" in
    if decide (sha ≠ "") then Go.slice_to sha 7
    else Ret "".

(** ** Go values of type [any] *)

Inductive any : Type :=
  | ANil
  | ABool (b : bool)
  | AFloat (f : float)
  | AString (s : string)
  | ASlice (l : list any)
  | AMap (m : gmap string any).

(** A typed slice of maps stored in an [any]. *)
Definition maps (l : list (gmap string any)) : any := ASlice (AMap <$> l).

(** ** The literals of [main.go] that are not ASCII, byte by byte *)

Module Lit.

(** main.go 91 and 178. *)
Definition iconFailure : string :=
  Eval cbv in Go.bytes_string [239; 163; 191; 195; 188; 195; 182; 194; 174]%N.
(** main.go 95 and 181. *)
Definition iconSuccess : string :=
  Eval cbv in Go.bytes_string [226; 128; 154; 195; 186; 195; 150]%N.
(** main.go 133 and 197. *)
Definition bullet : string :=
  Eval cbv in Go.bytes_string [226; 128; 154; 195; 132; 194; 162]%N.
(** main.go 186. *)
Definition iconProject : string :=
  Eval cbv in Go.bytes_string [239; 163; 191; 195; 188; 195; 172; 195; 163]%N.
(** main.go 187. *)
Definition iconBranch : string :=
  Eval cbv in Go.bytes_string [239; 163; 191; 195; 188; 195; 165; 195; 184]%N.
(** main.go 188. *)
Definition iconAuthor : string :=
  Eval cbv in Go.bytes_string [239; 163; 191; 195; 188; 195; 171; 194; 167]%N.
(** main.go 189. *)
Definition iconVersion : string :=
  Eval cbv in Go.bytes_string
    [239; 163; 191; 195; 188; 195; 168; 226; 136; 145; 195; 148; 226; 136;
     143; 195; 168]%N.
(** main.go 190. *)
Definition iconMessage : string :=
  Eval cbv in Go.bytes_string [239; 163; 191; 195; 188; 195; 173; 194; 168]%N.
(** main.go 194. *)
Definition iconVariables : string :=
  Eval cbv in Go.bytes_string [239; 163; 191; 195; 188; 195; 172; 195; 164]%N.
(** main.go 203. *)
Definition iconLink : string :=
  Eval cbv in Go.bytes_string [239; 163; 191; 195; 188; 195; 174; 195; 179]%N.

End Lit.

Abbreviation LF := Go.LF.

(** ** Buttons: [createActionButtons], main.go 214-285 *)

(** The map literal of one button (main.go 219-227, 235-243, 248-256). *)
Definition button (content type url : string) : gmap string any :=
  {[ "tag" := AString "button";
     "text" := AMap {[ "content" := AString content;
                       "tag" := AString "plain_text" ]};
     "type" := AString type;
     "url" := AString url ]}.

(** The buttons appended before the filter, main.go 215-258. *)
Definition builtActions (env : environ) : list (gmap string any) :=
  let actions := [] in
  let actions :=
    let pipelineURL := getEnvOrDefault env "CI_PIPELINE_URL" "" in
    if decide (pipelineURL ≠ "")
    then actions ++ [button "View Pipeline" "primary" pipelineURL]
    else actions in
  let tag := getEnvOrDefault env "CI_COMMIT_TAG" "" in
  if decide (tag ≠ "") then
    let repoURL := getEnvOrDefault env "CI_REPO_URL" "" in
    if decide (repoURL ≠ "")
    then
      let releaseURL := repoURL +:+ "/releases/tag/" +:+ tag in
      actions ++ [button "View Release" "default" releaseURL]
    else actions
  else
    let commitURL := getEnvOrDefault env "CI_PIPELINE_FORGE_URL" "" in
    if decide (commitURL ≠ "")
    then actions ++ [button "View Commit" "default" commitURL]
    else actions.

(** The condition of main.go 271-273 on a name and a label. *)
Definition nameSelects (name content : string) : bool :=
  (bool_decide (name = "pipeline") && Go.Contains content "Pipeline")
  || (bool_decide (name = "commit") && Go.Contains content "Commit")
  || (bool_decide (name = "release") && Go.Contains content "Release").

(** The test of main.go 269-273 on one action: both type assertions
    succeed and the name selects the label. *)
Definition selects (name : string) (action : gmap string any) : bool :=
  match action !! "text" with
  | Some (AMap text) =>
      match text !! "content" with
      | Some (AString content) => nameSelects name content
      | _ => false
      end
  | _ => false
  end.

(** The inner loop, main.go 268-279: append the first selected action and
    break. *)
Fixpoint appendFirst (name : string) (actions filtered : list (gmap string any))
    : list (gmap string any) :=
  match actions with
  | [] => filtered
  | action :: rest =>
      if selects name action then filtered ++ [action]
      else appendFirst name rest filtered
  end.

(** The filter, main.go 263-281. *)
Definition filterActions (requestedButtons : string)
    (actions : list (gmap string any)) : list (gmap string any) :=
  let buttonNames := Go.Split requestedButtons "," in
  foldl (fun filteredActions name =>
           let name := Go.TrimSpace name in
           appendFirst name actions filteredActions)
        [] buttonNames.

Definition createActionButtons (env : environ) : list (gmap string any) :=
  let actions := builtActions env in
  let requestedButtons := getEnvOrDefault env "PLUGIN_BUTTONS" "" in
  if decide (requestedButtons ≠ "") then filterActions requestedButtons actions
  else actions.

(** ** The two message formats *)

(** The status that both formats read, main.go 86 and 174. *)
Definition buildStatus (env : environ) : string :=
  getEnvOrDefault env "PLUGIN_STATUS" (getEnvOrDefault env "DRONE_BUILD_STATUS" "").

(** The first line of the commit message, main.go 118 and 190:
    [strings.Split(..., "\n")[0]]. *)
Definition commitFirstLine (env : environ) : run string :=
  Go.index (Go.Split (getEnvOrDefault env "CI_COMMIT_MESSAGE" "") LF) 0.

(** The loop over the variable names, main.go 131-134 and 195-198;
    [line] formats one entry. *)
Definition variableLines (env : environ) (line : string → string → string)
    (start variables : string) : string :=
  foldl (fun content varName =>
           let varName := Go.TrimSpace varName in
           content +:+ line varName (getEnvOrDefault env varName ""))
        start (Go.Split variables ",").

(** [createLarkCard], main.go 84-170. *)
Definition createLarkCard (env : environ) (projectVersion : string)
    : run (gmap string any) :=
  let status := buildStatus env in
  let '(headerColor, statusIcon, statusText) :=
    if decide (status = "failure")
    then ("red", Lit.iconFailure, "Pipeline Failed")
    else ("green", Lit.iconSuccess, "Pipeline Succeeded") in
  firstLine ← commitFirstLine env;
  let elements : list (gmap string any) :=
    [ {[ "tag" := AString "div";
         "text" := AMap
           {[ "content" := AString
                ("**Project:** " +:+ getEnvOrDefault env "CI_REPO" "" +:+ LF
                 +:+ "**Branch:** " +:+ getEnvOrDefault env "CI_COMMIT_BRANCH" ""
                 +:+ LF
                 +:+ "**Author:** " +:+ getEnvOrDefault env "CI_COMMIT_AUTHOR" ""
                 +:+ LF
                 +:+ "**Version:** " +:+ projectVersion);
              "tag" := AString "lark_md" ]} ]};
      {[ "tag" := AString "hr" ]};
      {[ "tag" := AString "div";
         "text" := AMap
           {[ "content" := AString ("**Commit Message:**" +:+ LF +:+ firstLine);
              "tag" := AString "lark_md" ]} ]} ] in
  let elements :=
    let variables := getEnvOrDefault env "PLUGIN_VARIABLES" "" in
    if decide (variables ≠ "") then
      let elements := elements ++ [ {[ "tag" := AString "hr" ]} ] in
      let varContent :=
        variableLines env
          (fun varName value =>
             Lit.bullet +:+ " `" +:+ varName +:+ "`: " +:+ value +:+ LF)
          ("**Variables:**" +:+ LF) variables in
      elements ++
        [ {[ "tag" := AString "div";
             "text" := AMap {[ "content" := AString varContent;
                               "tag" := AString "lark_md" ]} ]} ]
    else elements in
  let actions := createActionButtons env in
  let elements :=
    if decide (0 < length actions)%nat
    then elements ++ [ {[ "tag" := AString "action";
                          "actions" := maps actions ]} ]
    else elements in
  let projectName := getEnvOrDefault env "CI_REPO_NAME" "" in
  let headerTitle :=
    projectName +:+ " - " +:+ statusIcon +:+ " " +:+ statusText in
  mret
    {[ "msg_type" := AString "interactive";
       "card" := AMap
         {[ "header" := AMap
              {[ "title" := AMap {[ "content" := AString headerTitle;
                                    "tag" := AString "plain_text" ]};
                 "template" := AString headerColor ]};
            "elements" := maps elements ]} ]}.

(** [createLarkTextMessage], main.go 172-212. *)
Definition createLarkTextMessage (env : environ) (projectVersion : string)
    : run (gmap string any) :=
  let status := buildStatus env in
  let '(statusIcon, statusText) :=
    if decide (status = "failure")
    then (Lit.iconFailure, "PIPELINE FAILED")
    else (Lit.iconSuccess, "PIPELINE SUCCEEDED") in
  let message := statusIcon +:+ " " +:+ statusText +:+ LF +:+ LF in
  let message :=
    message +:+ (Lit.iconProject +:+ " Project: "
                 +:+ getEnvOrDefault env "CI_REPO" "" +:+ LF) in
  let message :=
    message +:+ (Lit.iconBranch +:+ " Branch: "
                 +:+ getEnvOrDefault env "CI_COMMIT_BRANCH" "" +:+ LF) in
  let message :=
    message +:+ (Lit.iconAuthor +:+ " Author: "
                 +:+ getEnvOrDefault env "CI_COMMIT_AUTHOR" "" +:+ LF) in
  let message :=
    message +:+ (Lit.iconVersion +:+ " Version: " +:+ projectVersion +:+ LF) in
  firstLine ← commitFirstLine env;
  let message :=
    message +:+ (Lit.iconMessage +:+ " Message: " +:+ firstLine +:+ LF) in
  let message :=
    let variables := getEnvOrDefault env "PLUGIN_VARIABLES" "" in
    if decide (variables ≠ "") then
      let message := message +:+ (LF +:+ Lit.iconVariables +:+ " Variables:" +:+ LF) in
      variableLines env
        (fun varName value =>
           Lit.bullet +:+ " " +:+ varName +:+ ": " +:+ value +:+ LF)
        message variables
    else message in
  let message :=
    let pipelineURL := getEnvOrDefault env "CI_PIPELINE_URL" "" in
    if decide (pipelineURL ≠ "")
    then message +:+ (LF +:+ Lit.iconLink +:+ " Pipeline: " +:+ pipelineURL)
    else message in
  mret
    {[ "msg_type" := AString "text";
       "content" := AMap {[ "text" := AString message ]} ]}.

(** ** [crypto/sha256], [crypto/hmac] and [encoding/base64] *)

(** The bytes of a string, each a number below 256: [[]byte(s)]. *)
Definition bytes_of (s : string) : list Z :=
  (fun c => Z.of_N (Go.byte c)) <$> String.list_ascii_of_string s.

(** SHA-256 as in FIPS 180-4, on 32-bit words held in [Z]. *)
Module SHA256.

Definition add32 (x y : Z) : Z := (x + y) mod 2 ^ 32.

Definition rotr (n x : Z) : Z :=
  Z.lor (Z.shiftr x n) (Z.shiftl x (32 - n) mod 2 ^ 32).

Definition Ch (x y z : Z) : Z :=
  Z.lxor (Z.land x y) (Z.land (Z.lxor x 0xffffffff) z).
Definition Maj (x y z : Z) : Z :=
  Z.lxor (Z.lxor (Z.land x y) (Z.land x z)) (Z.land y z).
Definition Sigma0 (x : Z) : Z :=
  Z.lxor (Z.lxor (rotr 2 x) (rotr 13 x)) (rotr 22 x).
Definition Sigma1 (x : Z) : Z :=
  Z.lxor (Z.lxor (rotr 6 x) (rotr 11 x)) (rotr 25 x).
Definition sigma0 (x : Z) : Z :=
  Z.lxor (Z.lxor (rotr 7 x) (rotr 18 x)) (Z.shiftr x 3).
Definition sigma1 (x : Z) : Z :=
  Z.lxor (Z.lxor (rotr 17 x) (rotr 19 x)) (Z.shiftr x 10).

(** The round constants: the first 32 bits of the fractional parts of
    the cube roots of the first 64 primes. *)
Fixpoint cube_root (bits : nat) (n root : Z) : Z :=
  match bits with
  | O => root
  | S bits' =>
      let next := root + 2 ^ Z.of_nat bits' in
      if next * next * next <=? n then cube_root bits' n next
      else cube_root bits' n root
  end.

Definition is_prime (p : Z) : bool :=
  forallb (fun d => negb (p mod d =? 0)) (seqZ 2 (p - 2)).

Definition K : list Z :=
  Eval vm_compute in
    (fun p => cube_root 36 (p * 2 ^ 96) 0 mod 2 ^ 32)
      <$> take 64 (List.filter is_prime (seqZ 2 400)).

(** The eight working variables, also the chaining value. *)
Definition state : Type := Z * Z * Z * Z * Z * Z * Z * Z.

Definition H0 : state :=
  (0x6a09e667, 0xbb67ae85, 0x3c6ef372, 0xa54ff53a,
   0x510e527f, 0x9b05688c, 0x1f83d9ab, 0x5be0cd19).

(** Padding: a [0x80] byte, zeros up to 56 modulo 64, then the length in
    bits as eight big-endian bytes. *)
Definition be_bytes (n : nat) (x : Z) : list Z :=
  (fun i => Z.shiftr x (8 * Z.of_nat i) mod 256) <$> rev (seq 0 n).

Definition pad (msg : list Z) : list Z :=
  let len := Z.of_nat (length msg) in
  msg ++ [0x80] ++ replicate (Z.to_nat ((55 - len) mod 64)) 0
      ++ be_bytes 8 (8 * len).

Fixpoint be_word (bs : list Z) (acc : Z) : Z :=
  match bs with
  | [] => acc
  | b :: bs' => be_word bs' (acc * 256 + b)
  end.

(** The 32-bit big-endian words of a byte sequence. *)
Fixpoint words (n : nat) (bs : list Z) : list Z :=
  match n with
  | O => []
  | S n' => be_word (take 4 bs) 0 :: words n' (drop 4 bs)
  end.

(** The message schedule; [w] holds the words so far, newest first. *)
Fixpoint schedule (n : nat) (w : list Z) : list Z :=
  match n with
  | O => rev w
  | S n' =>
      let x := add32 (add32 (sigma1 (nth 1 w 0)) (nth 6 w 0))
                     (add32 (sigma0 (nth 14 w 0)) (nth 15 w 0)) in
      schedule n' (x :: w)
  end.

Definition round (s : state) (kw : Z * Z) : state :=
  let '(a, b, c, d, e, f, g, h) := s in
  let '(k, w) := kw in
  let T1 := add32 (add32 (add32 h (Sigma1 e)) (add32 (Ch e f g) k)) w in
  let T2 := add32 (Sigma0 a) (Maj a b c) in
  (add32 T1 T2, a, b, c, add32 d T1, e, f, g).

Definition compress (s : state) (block : list Z) : state :=
  let W := schedule 48 (rev (words 16 block)) in
  let '(a, b, c, d, e, f, g, h) := foldl round s (zip K W) in
  let '(a0, b0, c0, d0, e0, f0, g0, h0) := s in
  (add32 a0 a, add32 b0 b, add32 c0 c, add32 d0 d,
   add32 e0 e, add32 f0 f, add32 g0 g, add32 h0 h).

Fixpoint blocks (n : nat) (s : state) (bs : list Z) : state :=
  match n with
  | O => s
  | S n' => blocks n' (compress s (take 64 bs)) (drop 64 bs)
  end.

Definition digest (s : state) : list Z :=
  let '(a, b, c, d, e, f, g, h) := s in
  be_bytes 4 a ++ be_bytes 4 b ++ be_bytes 4 c ++ be_bytes 4 d
  ++ be_bytes 4 e ++ be_bytes 4 f ++ be_bytes 4 g ++ be_bytes 4 h.

(** [sha256.Sum256]. *)
Definition Sum256 (msg : list Z) : list Z :=
  let p := pad msg in
  digest (blocks (length p / 64) H0 p).

Definition BlockSize : nat := 64.
Definition Size : nat := 32.

End SHA256.

(** The object returned by [hmac.New(sha256.New, key)]: the two padded
    keys and the bytes written so far. *)
Module HMAC.

Record t : Type := mk { ipad : list Z; opad : list Z; written : list Z }.

(** [hmac.New]: a key longer than a block is hashed first; the key is
    then filled with zeros to a block and mixed with the two pads. *)
Definition New (key : list Z) : t :=
  let key :=
    if decide (SHA256.BlockSize < length key)%nat then SHA256.Sum256 key
    else key in
  let key := key ++ replicate (SHA256.BlockSize - length key) 0 in
  {| ipad := (fun b => Z.lxor b 0x36) <$> key;
     opad := (fun b => Z.lxor b 0x5c) <$> key;
     written := [] |}.

(** [h.Write(p)]. *)
Definition Write (h : t) (p : list Z) : t :=
  {| ipad := ipad h; opad := opad h; written := written h ++ p |}.

(** [h.Sum(b)]: the authentication code appended to [b]. *)
Definition Sum (h : t) (b : list Z) : list Z :=
  b ++ SHA256.Sum256 (opad h ++ SHA256.Sum256 (ipad h ++ written h)).

End HMAC.

(** [base64.StdEncoding]. *)
Module Base64.

Definition encodeStd : string :=
  "ABCDEFGHIJKLMNOPQRSTUVWXYZabcdefghijklmnopqrstuvwxyz0123456789+/".

Definition enc (n : Z) : ascii :=
  default "="%char (String.get (Z.to_nat (n mod 64)) encodeStd).

Fixpoint EncodeToString (src : list Z) : string :=
  match src with
  | [] => ""
  | [a] =>
      String (enc (Z.shiftr a 2))
        (String (enc (Z.shiftl a 4)) "==")
  | [a; b] =>
      String (enc (Z.shiftr a 2))
        (String (enc (Z.lor (Z.shiftl a 4) (Z.shiftr b 4)))
           (String (enc (Z.shiftl b 2)) "="))
  | a :: b :: c :: rest =>
      String (enc (Z.shiftr a 2))
        (String (enc (Z.lor (Z.shiftl a 4) (Z.shiftr b 4)))
           (String (enc (Z.lor (Z.shiftl b 2) (Z.shiftr c 6)))
              (String (enc c) (EncodeToString rest))))
  end.

End Base64.

(** [generateSignature], main.go 68-72. *)
Definition generateSignature (timestamp secret : string) : string :=
  let stringToSign := timestamp +:+ LF +:+ secret in
  let h := HMAC.New (bytes_of stringToSign) in
  Base64.EncodeToString (HMAC.Sum h []).

(** ** Delivery and the entry point *)

(** What [http.Post] hands back when the transport succeeds: the status
    code and the bytes read from the body. *)
Record Response : Type := mkResponse { StatusCode : Z; Body : string }.

Definition StatusOK : Z := 200.

Section Process.

(** [json.Marshal] on a message, [None] for an error. *)
Variable Marshal : gmap string any → option string.
(** [json.Unmarshal] into a [map[string]any], [None] for an error;
    JSON numbers decode to [float64]. *)
Variable Unmarshal : string → option (gmap string any).
(** [http.Post(url, "application/json", body)], [None] for a transport
    error. *)
Variable Post : string → string → option Response.
(** [time.Now().Unix()]. *)
Variable now : Z.

(** [sendMessage], main.go 296-323. *)
Definition sendMessage (webhookURL messageBytes : string) : run () :=
  match Post webhookURL messageBytes with
  | None => Exit 1
  | Some resp =>
      let body := Body resp in
      if decide (StatusCode resp ≠ StatusOK) then Exit 1
      else
        match Unmarshal body with
        | Some response =>
            match response !! "code" with
            | Some (AFloat code) =>
                if negb (code =? 0)%float then Exit 1 else Ret ()
            | _ => Ret ()
            end
        | None => Ret ()
        end
  end.

(** The message of main.go 29-48: the chosen format, with the two
    signature fields when a secret is set. *)
Definition signedMessage (env : environ) : run (gmap string any) :=
  projectVersion ← getProjectVersion env;
  let secret := getEnvOrDefault env "PLUGIN_SECRET" "" in
  let useCard :=
    bool_decide (getEnvOrDefault env "PLUGIN_USE_CARD" "true" = "true") in
  message ←
    (if useCard then createLarkCard env projectVersion
     else createLarkTextMessage env projectVersion);
  if decide (secret ≠ "") then
    let timestamp := Go.FormatInt now in
    let sign := generateSignature timestamp secret in
    mret (<["sign" := AString sign]>
            (<["timestamp" := AString timestamp]> message))
  else mret message.

(** [main], main.go 22-66.  Returning [Ret ()] is exit status 0. *)
Definition main (env : environ) : run () :=
  let webhookURL := getEnvOrDefault env "PLUGIN_WEBHOOK_URL" "" in
  if decide (webhookURL = "") then Exit 1
  else
    message ← signedMessage env;
    match Marshal message with
    | None => Exit 1
    | Some messageBytes =>
        if decide (webhookURL ≠ "") then sendMessage webhookURL messageBytes
        else Ret ()
    end.

End Process.

(** ** Reading a message back *)

(** One step into a value: a map key or a slice index. *)
Inductive sel : Type :=
  | Key (k : string)
  | Idx (i : nat).

Fixpoint select (path : list sel) (v : any) : option any :=
  match path, v with
  | [], _ => Some v
  | Key k :: path', AMap m => m !! k ≫= select path'
  | Idx i :: path', ASlice l => l !! i ≫= select path'
  | _, _ => None
  end.

(** The header colour and the header title of a card. *)
Definition cardTemplate (card : gmap string any) : option any :=
  select [Key "card"; Key "header"; Key "template"] (AMap card).
Definition cardTitle (card : gmap string any) : option any :=
  select [Key "card"; Key "header"; Key "title"; Key "content"] (AMap card).
(** The content of the card's third element, the commit message. *)
Definition cardCommit (card : gmap string any) : option any :=
  select [Key "card"; Key "elements"; Idx 2; Key "text"; Key "content"]
    (AMap card).
(** The body of a text message. *)
Definition textBody (message : gmap string any) : option any :=
  select [Key "content"; Key "text"] (AMap message).
(** The elements of a card. *)
Definition cardElements (card : gmap string any) : option any :=
  select [Key "card"; Key "elements"] (AMap card).

(** The number of times a byte occurs in a string. *)
Fixpoint count_byte (c : ascii) (s : string) : nat :=
  match s with
  | "" => 0
  | String x s' => (if Ascii.eqb x c then 1 else 0) + count_byte c s'
  end.

(** The text message by parts: the five lines before the commit message
    (main.go 185-189) and what follows it (main.go 192-204). *)
Definition textHead (env : environ) (projectVersion : string) : string :=
  (if decide (buildStatus env = "failure")
   then Lit.iconFailure +:+ " PIPELINE FAILED"
   else Lit.iconSuccess +:+ " PIPELINE SUCCEEDED") +:+ LF +:+ LF
  +:+ Lit.iconProject +:+ " Project: " +:+ Getenv env "CI_REPO" +:+ LF
  +:+ Lit.iconBranch +:+ " Branch: " +:+ Getenv env "CI_COMMIT_BRANCH" +:+ LF
  +:+ Lit.iconAuthor +:+ " Author: " +:+ Getenv env "CI_COMMIT_AUTHOR" +:+ LF
  +:+ Lit.iconVersion +:+ " Version: " +:+ projectVersion +:+ LF.

Definition textTail (env : environ) : string :=
  (if decide (Getenv env "PLUGIN_VARIABLES" ≠ "")
   then LF +:+ Lit.iconVariables +:+ " Variables:" +:+ LF
        +:+ variableLines env
              (fun varName value =>
                 Lit.bullet +:+ " " +:+ varName +:+ ": " +:+ value +:+ LF)
              "" (Getenv env "PLUGIN_VARIABLES")
   else "")
  +:+ (if decide (Getenv env "CI_PIPELINE_URL" ≠ "")
       then LF +:+ Lit.iconLink +:+ " Pipeline: "
            +:+ Getenv env "CI_PIPELINE_URL"
       else "").

(** ** The specification's wording, for comparison with the code *)

Module Spec.

(** "The portion of the message before its first newline character". *)
Fixpoint beforeNewline (s : string) : string :=
  match s with
  | "" => ""
  | String c s' => if Ascii.eqb c "010" then "" else String c (beforeNewline s')
  end.

(** HMAC as RFC 2104 words it, over SHA-256: the key brought to one
    block, [H((K xor opad) || H((K xor ipad) || text))]. *)
Definition blockKey (key : list Z) : list Z :=
  let k := if decide (length key ≤ 64)%nat then key else SHA256.Sum256 key in
  k ++ replicate (64 - length k) 0.

Definition HMAC_SHA256 (key text : list Z) : list Z :=
  let k := blockKey key in
  SHA256.Sum256
    (zip_with Z.lxor k (replicate 64 0x5c)
     ++ SHA256.Sum256 (zip_with Z.lxor k (replicate 64 0x36) ++ text)).

(** "The Base64 standard encoding of the HMAC-SHA256 digest computed
    with key [timestamp + "\n" + secret] over the empty message". *)
Definition sign (timestamp secret : string) : string :=
  Base64.EncodeToString
    (HMAC_SHA256 (bytes_of (timestamp +:+ LF +:+ secret)) []).

(** "The HTTP response status is 2xx". *)
Definition is2xx (code : Z) : bool := (200 <=? code) && (code <? 300).

(** "The response body is a JSON object containing a non-zero numeric
    [code] field", on the outcome of decoding the body. *)
Definition rejected (decoded : option (gmap string any)) : bool :=
  match decoded with
  | Some response =>
      match response !! "code" with
      | Some (AFloat code) => negb (code =? 0)%float
      | _ => false
      end
  | None => false
  end.

(** "Whose label matches a requested category ... after trimming
    surrounding whitespace from each name". *)
Definition requested (names : list string) (action : gmap string any) : bool :=
  existsb (fun name => selects (Go.TrimSpace name) action) names.

(** The order-preserving filter that the specification describes. *)
Definition filterInOrder (names : list string)
    (actions : list (gmap string any)) : list (gmap string any) :=
  List.filter (requested names) actions.

End Spec.

(** ** Environments used as examples *)

Module Ex.

(** Both URLs, and an allow-list that names the commit button first. *)
Definition reordered : environ :=
  {[ "CI_PIPELINE_URL" := "https://ci.example/repos/1/pipeline/7";
     "CI_PIPELINE_FORGE_URL" := "https://forge.example/r/commit/abcdef1";
     "PLUGIN_BUTTONS" := "commit,pipeline" ]}.

(** A tag build with a forge URL and no repository URL. *)
Definition tag_without_repo : environ :=
  {[ "CI_COMMIT_TAG" := "v1.0.0";
     "CI_PIPELINE_FORGE_URL" := "https://forge.example/r/commit/abcdef1" ]}.

(** A tag build with both URLs. *)
Definition release : environ :=
  {[ "CI_COMMIT_TAG" := "v1.0.0";
     "CI_REPO_URL" := "https://forge.example/r";
     "CI_PIPELINE_URL" := "https://ci.example/repos/1/pipeline/7" ]}.

(** An allow-list that names the pipeline button twice. *)
Definition repeated : environ :=
  {[ "CI_PIPELINE_URL" := "https://ci.example/repos/1/pipeline/7";
     "PLUGIN_BUTTONS" := "pipeline, pipeline" ]}.

(** Only a commit button, and an allow-list asking for the pipeline
    button. *)
Definition only_commit : environ :=
  {[ "CI_PIPELINE_FORGE_URL" := "https://forge.example/r/commit/abcdef1";
     "PLUGIN_BUTTONS" := "pipeline" ]}.

(** Two response bodies of the webhook, and their decoding: what
    [json.Unmarshal] yields on them. *)
Definition quoted (s : string) : string :=
  String "034"%char s +:+ String "034"%char "".

Definition successBody : string :=
  Eval cbv in
    ("{" +:+ quoted "code" +:+ ":0," +:+ quoted "message" +:+ ":"
     +:+ quoted "success" +:+ "}").

Definition rejectedBody : string :=
  Eval cbv in
    ("{" +:+ quoted "code" +:+ ":19001," +:+ quoted "msg" +:+ ":"
     +:+ quoted "param invalid" +:+ "}").

Definition decode (body : string) : option (gmap string any) :=
  if decide (body = successBody)
  then Some {[ "code" := AFloat 0; "message" := AString "success" ]}
  else if decide (body = rejectedBody)
  then Some {[ "code" := AFloat 19001; "msg" := AString "param invalid" ]}
  else None.

(** A webhook that answers every request with the given response. *)
Definition answers (resp : Response) : string → string → option Response :=
  fun _ _ => Some resp.

End Ex.

(** * Properties *)

(** ** Strings *)

Lemma take_bytes_substring (n : nat) (s : string) :
  Go.take_bytes n s = String.substring 0 n s.
Proof.
  revert n; induction s as [|c s IH]; intros [|n]; simpl; try reflexivity.
  by rewrite IH.
Qed.

Lemma getEnvOrDefault_empty_default (env : environ) (key : string) :
  getEnvOrDefault env key "" = Getenv env key.
Proof.
  unfold getEnvOrDefault; simpl.
  destruct (decide (Getenv env key ≠ "")) as [|Hn]; [done|].
  destruct (decide (Getenv env key = "")) as [Heq|Hne]; [by rewrite Heq|done].
Qed.

(** ** Version resolution *)

(** C6: with no tag and the three-byte SHA ["abc"], [getProjectVersion]
    does not return a string: the slice [sha[:7]] panics. *)
Theorem getProjectVersion_short_sha :
  getProjectVersion {[ "CI_COMMIT_SHA" := "abc" ]}
  = Panic "slice bounds out of range".
Proof. reflexivity. Qed.

(** The same for every non-empty SHA of fewer than seven bytes. *)
Lemma getProjectVersion_panics (env : environ) :
  Getenv env "CI_COMMIT_TAG" = "" →
  Getenv env "CI_COMMIT_SHA" ≠ "" →
  (String.length (Getenv env "CI_COMMIT_SHA") < 7)%nat →
  getProjectVersion env = Panic "slice bounds out of range".
Proof.
  intros Htag Hsha Hlen. unfold getProjectVersion.
  rewrite !getEnvOrDefault_empty_default, Htag.
  destruct (decide ("" ≠ "")) as [|_]; [done|].
  destruct (decide (Getenv env "CI_COMMIT_SHA" ≠ "")); [|done].
  unfold Go.slice_to.
  destruct (decide (7 ≤ String.length (Getenv env "CI_COMMIT_SHA"))%nat);
    [lia|done].
Qed.

(** C7: when the SHA is empty or has at least seven bytes, the version is
    the tag if there is one, else the first seven bytes of the SHA if
    there is one, else the empty string. *)
Theorem getProjectVersion_spec (env : environ) :
  let tag := Getenv env "CI_COMMIT_TAG" in
  let sha := Getenv env "CI_COMMIT_SHA" in
  sha = "" ∨ (7 ≤ String.length sha)%nat →
  getProjectVersion env =
    Ret (if decide (tag ≠ "") then tag
         else if decide (sha ≠ "") then String.substring 0 7 sha
         else "").
Proof.
  intros tag sha Hsha. unfold getProjectVersion.
  rewrite !getEnvOrDefault_empty_default. fold tag sha.
  destruct (decide (tag ≠ "")); [done|].
  destruct (decide (sha ≠ "")) as [Hne|]; [|done].
  unfold Go.slice_to. destruct Hsha as [->|Hlen]; [done|].
  destruct (decide (7 ≤ String.length sha)%nat); [|lia].
  by rewrite take_bytes_substring.
Qed.

Lemma getProjectVersion_spec_witness :
  getProjectVersion {[ "CI_COMMIT_SHA" := "abcdef1234567890" ]} = Ret "abcdef1".
Proof.
  etrans.
  - apply (getProjectVersion_spec {[ "CI_COMMIT_SHA" := "abcdef1234567890" ]}).
    right. vm_compute. lia.
  - vm_compute. reflexivity.
Defined.

(** ** Strings, continued *)

Lemma append_cons (x : ascii) (a b : string) :
  String x a +:+ b = String x (a +:+ b).
Proof. reflexivity. Qed.

Lemma append_nil_l (a : string) : "" +:+ a = a.
Proof. reflexivity. Qed.

Lemma append_assoc (a b c : string) : (a +:+ b) +:+ c = a +:+ (b +:+ c).
Proof.
  induction a as [|x a IH]; [done|]. by rewrite !append_cons, IH.
Qed.

Lemma append_nil_r (a : string) : a +:+ "" = a.
Proof. induction a as [|x a IH]; [done|]. by rewrite append_cons, IH. Qed.

Lemma rev_app_append (a b c : string) :
  String.rev_app a b +:+ c = String.rev_app a (b +:+ c).
Proof.
  revert b; induction a as [|x a IH]; intros b; simpl; [done|].
  by rewrite IH, append_cons.
Qed.

(** Splitting on ["\n"]: the first piece is what precedes the first
    newline. *)
Lemma genSplit_LF_head (cur s : string) :
  ∃ rest, Go.genSplit LF 0 cur s
          = (String.rev cur +:+ Spec.beforeNewline s) :: rest.
Proof.
  revert cur; induction s as [|c s IH]; intros cur.
  - exists []. simpl. by rewrite append_nil_r.
  - cbn [Go.genSplit Go.HasPrefix Go.LF Spec.beforeNewline].
    rewrite andb_true_r, (Ascii.eqb_sym "010"%char c).
    destruct (Ascii.eqb c "010").
    + eexists. rewrite append_nil_r. reflexivity.
    + destruct (IH (String c cur)) as [rest ->]. exists rest. f_equal.
      unfold String.rev; simpl. by rewrite !rev_app_append.
Qed.

Lemma commitFirstLine_eq (env : environ) :
  commitFirstLine env
  = Ret (Spec.beforeNewline (Getenv env "CI_COMMIT_MESSAGE")).
Proof.
  unfold commitFirstLine, Go.Split. rewrite getEnvOrDefault_empty_default.
  by destruct (genSplit_LF_head "" (Getenv env "CI_COMMIT_MESSAGE")) as [rest ->].
Qed.

(** What precedes the first newline is a prefix of the message, holds no
    newline, and ends where the message ends or its first newline is. *)
Lemma beforeNewline_prefix (s : string) :
  s = Spec.beforeNewline s
  ∨ ∃ rest, s = Spec.beforeNewline s +:+ LF +:+ rest.
Proof.
  induction s as [|c s IH]; simpl; [by left|].
  destruct (Ascii.eqb_spec c "010") as [->|_].
  - right. by exists s.
  - destruct IH as [IH|[rest IH]]; [left|right; exists rest];
      rewrite ?append_cons; by f_equal.
Qed.

Lemma beforeNewline_no_LF (s : string) :
  Go.Contains (Spec.beforeNewline s) LF = false.
Proof.
  induction s as [|c s IH]; simpl; [done|].
  destruct (Ascii.eqb_spec c "010") as [->|Hc]; [done|].
  cbn [Go.Contains Go.HasPrefix Go.LF]. rewrite IH, andb_true_r, orb_false_r.
  by destruct (Ascii.eqb_spec "010"%char c) as [<-|_].
Qed.

(** The fold over the variable names only appends: what the content
    started with stays in front. *)
Lemma variableLines_start (env : environ) (line : string → string → string)
    (a b variables : string) :
  variableLines env line (a +:+ b) variables
  = a +:+ variableLines env line b variables.
Proof.
  unfold variableLines. generalize (Go.Split variables ","). intros l.
  revert b; induction l as [|x l IH]; intros b; simpl; [done|].
  by rewrite append_assoc, IH.
Qed.

(** ** Status, colour and title *)

Lemma buildStatus_failure (env : environ) :
  buildStatus env = "failure" ↔
  Getenv env "PLUGIN_STATUS" = "failure"
  ∨ Getenv env "PLUGIN_STATUS" = "" ∧ Getenv env "DRONE_BUILD_STATUS" = "failure".
Proof.
  unfold buildStatus. rewrite getEnvOrDefault_empty_default.
  unfold getEnvOrDefault; simpl.
  destruct (decide (Getenv env "PLUGIN_STATUS" ≠ "")) as [Hne|Heq].
  - split; [by left|]. by intros [H|[H _]].
  - apply dec_stable in Heq. rewrite Heq. split; [by right|].
    by intros [H|[_ H]].
Qed.

Lemma variableLines_from_empty (env : environ)
    (line : string → string → string) (a variables : string) :
  variableLines env line a variables
  = a +:+ variableLines env line "" variables.
Proof. by rewrite <- (append_nil_r a) at 1; rewrite variableLines_start. Qed.

(** The text message, by parts. *)
Lemma createLarkTextMessage_parts (env : environ) (projectVersion : string) :
  createLarkTextMessage env projectVersion
  = Ret {[ "msg_type" := AString "text";
           "content" := AMap
             {[ "text" := AString
                  (textHead env projectVersion
                   +:+ Lit.iconMessage +:+ " Message: "
                   +:+ Spec.beforeNewline (Getenv env "CI_COMMIT_MESSAGE")
                   +:+ LF +:+ textTail env) ]} ]}.
Proof.
  unfold createLarkTextMessage, textHead, textTail.
  rewrite commitFirstLine_eq, !getEnvOrDefault_empty_default.
  destruct (decide (buildStatus env = "failure"));
    destruct (decide (Getenv env "PLUGIN_VARIABLES" ≠ ""));
    destruct (decide (Getenv env "CI_PIPELINE_URL" ≠ ""));
    cbn [mbind run_bind mret run_ret]; do 4 f_equal;
    rewrite ?(variableLines_from_empty _ _ (_ +:+ _));
    rewrite ?append_assoc, ?append_nil_r, ?append_nil_l; reflexivity.
Qed.

(** The card: it is always built, and its header and third element are
    as follows. *)
Lemma createLarkCard_parts (env : environ) (projectVersion : string) :
  ∃ card,
    createLarkCard env projectVersion = Ret card
    ∧ cardTemplate card
      = Some (AString (if decide (buildStatus env = "failure")
                       then "red" else "green"))
    ∧ cardTitle card
      = Some (AString
                (Getenv env "CI_REPO_NAME" +:+ " - "
                 +:+ (if decide (buildStatus env = "failure")
                      then Lit.iconFailure +:+ " Pipeline Failed"
                      else Lit.iconSuccess +:+ " Pipeline Succeeded")))
    ∧ cardCommit card
      = Some (AString
                ("**Commit Message:**" +:+ LF
                 +:+ Spec.beforeNewline (Getenv env "CI_COMMIT_MESSAGE"))).
Proof.
  unfold createLarkCard.
  rewrite commitFirstLine_eq, !getEnvOrDefault_empty_default.
  destruct (decide (buildStatus env = "failure"));
    destruct (decide (Getenv env "PLUGIN_VARIABLES" ≠ ""));
    destruct (decide (0 < length (createActionButtons env))%nat);
    cbn [mbind run_bind mret run_ret];
    eexists; split_and!; reflexivity.
Qed.

(** C3: the header colour is red and both titles announce a failure when
    the override is ["failure"], or is empty while the pipeline status is
    ["failure"]; in every other case the colour is green and both titles
    announce a success. *)
Theorem status_colour_and_title (env : environ) (projectVersion : string) :
  let override := Getenv env "PLUGIN_STATUS" in
  let pipeline := Getenv env "DRONE_BUILD_STATUS" in
  let failed :=
    bool_decide (override = "failure"
                 ∨ override = "" ∧ pipeline = "failure") in
  ∃ card message rest,
    createLarkCard env projectVersion = Ret card
    ∧ createLarkTextMessage env projectVersion = Ret message
    ∧ cardTemplate card = Some (AString (if failed then "red" else "green"))
    ∧ cardTitle card
      = Some (AString
                (Getenv env "CI_REPO_NAME" +:+ " - "
                 +:+ (if failed then Lit.iconFailure +:+ " Pipeline Failed"
                      else Lit.iconSuccess +:+ " Pipeline Succeeded")))
    ∧ textBody message
      = Some (AString
                ((if failed then Lit.iconFailure +:+ " PIPELINE FAILED"
                  else Lit.iconSuccess +:+ " PIPELINE SUCCEEDED")
                 +:+ LF +:+ LF +:+ rest)).
Proof.
  intros override pipeline failed.
  assert (Hfailed : failed = bool_decide (buildStatus env = "failure")).
  { unfold failed. apply bool_decide_ext. symmetry. apply buildStatus_failure. }
  rewrite Hfailed. clear Hfailed failed.
  destruct (createLarkCard_parts env projectVersion)
    as (card & Hcard & Htemplate & Htitle & _).
  exists card. eexists. eexists.
  split; [exact Hcard|].
  split; [apply createLarkTextMessage_parts|].
  unfold textHead.
  destruct (decide (buildStatus env = "failure")) as [Hf|Hs].
  - rewrite (bool_decide_eq_true_2 _ Hf).
    split_and!; [exact Htemplate|exact Htitle|].
    unfold textBody. cbn [select]. rewrite !append_assoc. reflexivity.
  - rewrite (bool_decide_eq_false_2 _ Hs).
    split_and!; [exact Htemplate|exact Htitle|].
    unfold textBody. cbn [select]. rewrite !append_assoc. reflexivity.
Qed.

(** C8: the card's commit element and the text's message line hold the
    commit message up to its first newline and nothing of what follows:
    that portion is a prefix of the message without a newline in it, and
    the message either ends there or goes on with a newline. *)
Theorem commit_message_first_line (env : environ) (projectVersion : string) :
  let commitMessage := Getenv env "CI_COMMIT_MESSAGE" in
  let firstLine := Spec.beforeNewline commitMessage in
  (∃ card message,
     createLarkCard env projectVersion = Ret card
     ∧ createLarkTextMessage env projectVersion = Ret message
     ∧ cardCommit card
       = Some (AString ("**Commit Message:**" +:+ LF +:+ firstLine))
     ∧ textBody message
       = Some (AString (textHead env projectVersion
                        +:+ Lit.iconMessage +:+ " Message: " +:+ firstLine
                        +:+ LF +:+ textTail env)))
  ∧ Go.Contains firstLine LF = false
  ∧ (commitMessage = firstLine
     ∨ ∃ dropped, commitMessage = firstLine +:+ LF +:+ dropped).
Proof.
  intros commitMessage firstLine. split_and!.
  - destruct (createLarkCard_parts env projectVersion)
      as (card & Hcard & _ & _ & Hcommit).
    exists card. eexists.
    split; [exact Hcard|].
    split; [apply createLarkTextMessage_parts|].
    split; [exact Hcommit|reflexivity].
  - apply beforeNewline_no_LF.
  - apply beforeNewline_prefix.
Qed.

(** The example of the specification: ["line one\nline two"] is rendered
    as ["line one"]. *)
Example commit_message_example :
  Spec.beforeNewline ("line one" +:+ LF +:+ "line two") = "line one"
  ∧ commitFirstLine {[ "CI_COMMIT_MESSAGE" := "line one" +:+ LF +:+ "line two" ]}
    = Ret "line one".
Proof. split; reflexivity. Qed.

(** ** Buttons *)

Lemma selects_button (name content type url : string) :
  selects name (button content type url) = nameSelects name content.
Proof. reflexivity. Qed.

(** From here on a button is compared by its three fields. *)
#[local] Opaque button.

Lemma nameSelects_pipeline (name : string) :
  nameSelects name "View Pipeline" = bool_decide (name = "pipeline").
Proof.
  unfold nameSelects.
  change (Go.Contains "View Pipeline" "Pipeline") with true.
  change (Go.Contains "View Pipeline" "Commit") with false.
  change (Go.Contains "View Pipeline" "Release") with false.
  by rewrite !andb_false_r, andb_true_r, !orb_false_r.
Qed.

Lemma nameSelects_commit (name : string) :
  nameSelects name "View Commit" = bool_decide (name = "commit").
Proof.
  unfold nameSelects.
  change (Go.Contains "View Commit" "Pipeline") with false.
  change (Go.Contains "View Commit" "Commit") with true.
  change (Go.Contains "View Commit" "Release") with false.
  by rewrite !andb_false_r, andb_true_r, orb_false_r.
Qed.

Lemma nameSelects_release (name : string) :
  nameSelects name "View Release" = bool_decide (name = "release").
Proof.
  unfold nameSelects.
  change (Go.Contains "View Release" "Pipeline") with false.
  change (Go.Contains "View Release" "Commit") with false.
  change (Go.Contains "View Release" "Release") with true.
  by rewrite !andb_false_r, andb_true_r.
Qed.

(** What the builder can have appended: at most a pipeline button, then
    at most one of a release and a commit button. *)
Lemma builtActions_shape (env : environ) :
  ∃ p rc,
    builtActions env = p ++ rc
    ∧ (p = [] ∨ ∃ u, p = [button "View Pipeline" "primary" u])
    ∧ (rc = [] ∨ (∃ u, rc = [button "View Release" "default" u])
       ∨ ∃ u, rc = [button "View Commit" "default" u]).
Proof.
  unfold builtActions.
  destruct (decide (getEnvOrDefault env "CI_PIPELINE_URL" "" ≠ ""));
    destruct (decide (getEnvOrDefault env "CI_COMMIT_TAG" "" ≠ ""));
    destruct (decide (getEnvOrDefault env "CI_REPO_URL" "" ≠ ""));
    destruct (decide (getEnvOrDefault env "CI_PIPELINE_FORGE_URL" "" ≠ ""));
    simpl;
    match goal with
    | |- ∃ p rc, [button "View Pipeline" ?t ?u; ?b] = _ ∧ _ =>
        exists [button "View Pipeline" t u], [b]
    | |- ∃ p rc, [button "View Pipeline" ?t ?u] = _ ∧ _ =>
        exists [button "View Pipeline" t u], []
    | |- ∃ p rc, [?b] = _ ∧ _ => exists [], [b]
    | |- ∃ p rc, [] = _ ∧ _ => exists [], []
    end;
    (split; [exact eq_refl|]); split;
    first [ left; exact eq_refl
          | right; eexists; exact eq_refl
          | right; left; eexists; exact eq_refl
          | right; right; eexists; exact eq_refl ].
Qed.

Ltac built_cases env :=
  destruct (builtActions_shape env)
    as (? & ? & -> & [->|[? ->]] & [->|[[? ->]|[? ->]]]).

Ltac button_bools :=
  rewrite ?selects_button, ?nameSelects_pipeline, ?nameSelects_commit,
    ?nameSelects_release in *;
  repeat case_bool_decide; simplify_eq/=; try done.

(** Evaluation on a given environment: the lookups and the string
    functions are computed, the buttons are left as they are. *)
Ltac eval_term t :=
  let v := eval vm_compute in t in
  replace t with v by (vm_compute; reflexivity).

Ltac eval_strings :=
  repeat match goal with
  | |- context [getEnvOrDefault ?e ?k ?d] => eval_term (getEnvOrDefault e k d)
  | |- context [Getenv ?e ?k] => eval_term (Getenv e k)
  | |- context [Go.Split ?s ?sep] => eval_term (Go.Split s sep)
  | |- context [Go.TrimSpace ?s] => eval_term (Go.TrimSpace s)
  end.

Ltac eval_decide :=
  repeat first
    [ rewrite decide_True by done
    | rewrite decide_False by (let H := fresh in intros H; by apply H)
    | rewrite decide_False by done
    | rewrite bool_decide_eq_true_2 by done
    | rewrite bool_decide_eq_false_2 by done ].

Ltac eval_buttons :=
  unfold createActionButtons, filterActions, builtActions;
  repeat (progress
            (rewrite ?selects_button, ?nameSelects_pipeline,
               ?nameSelects_commit, ?nameSelects_release;
             eval_strings; eval_decide;
             cbn [foldl appendFirst app List.filter existsb orb])).

(** On the built buttons the inner loop's "first selected" is "every
    selected": a name selects at most one of them. *)
Lemma appendFirst_built (env : environ) (name : string) :
  appendFirst name (builtActions env) []
  = List.filter (selects name) (builtActions env).
Proof. built_cases env; simpl; button_bools. Qed.

(** A built button is selected by one name only. *)
Lemma selects_one_name (env : environ) (name name' : string)
    (action : gmap string any) :
  action ∈ builtActions env →
  selects name action = true → selects name' action = true → name = name'.
Proof.
  built_cases env; rewrite ?elem_of_app, ?list_elem_of_singleton, ?elem_of_nil;
    intros Hin H1 H2; destruct_or?; subst; try done; button_bools.
Qed.

(** A name selects one built button only. *)
Lemma selects_one_button (env : environ) (name : string)
    (action action' : gmap string any) :
  action ∈ builtActions env → action' ∈ builtActions env →
  selects name action = true → selects name action' = true →
  action = action'.
Proof.
  built_cases env; rewrite ?elem_of_app, ?list_elem_of_singleton, ?elem_of_nil;
    intros Hin Hin' H1 H2; destruct_or?; subst; try done; button_bools.
Qed.

Lemma appendFirst_acc (name : string) (actions acc : list (gmap string any)) :
  appendFirst name actions acc = acc ++ appendFirst name actions [].
Proof.
  induction actions as [|a actions IH]; simpl; [by rewrite app_nil_r|].
  by destruct (selects name a).
Qed.

(** The outer loop: one contribution per name, in the order of the
    names. *)
Lemma foldl_appendFirst (actions acc : list (gmap string any))
    (names : list string) :
  foldl (fun filteredActions name =>
           appendFirst (Go.TrimSpace name) actions filteredActions)
        acc names
  = acc ++ flat_map (fun name => appendFirst (Go.TrimSpace name) actions [])
             names.
Proof.
  revert acc; induction names as [|name names IH]; intros acc; simpl;
    [by rewrite app_nil_r|].
  by rewrite IH, (appendFirst_acc _ _ acc), <- app_assoc.
Qed.

Lemma filterActions_flat_map (requestedButtons : string)
    (actions : list (gmap string any)) :
  filterActions requestedButtons actions
  = flat_map (fun name => appendFirst (Go.TrimSpace name) actions [])
      (Go.Split requestedButtons ",").
Proof. unfold filterActions. by rewrite foldl_appendFirst. Qed.

Lemma createActionButtons_filtered (env : environ) :
  Getenv env "PLUGIN_BUTTONS" ≠ "" →
  createActionButtons env
  = flat_map (fun name =>
                List.filter (selects (Go.TrimSpace name)) (builtActions env))
      (Go.Split (Getenv env "PLUGIN_BUTTONS") ",").
Proof.
  intros Hne. unfold createActionButtons.
  rewrite getEnvOrDefault_empty_default.
  destruct (decide (Getenv env "PLUGIN_BUTTONS" ≠ "")); [|done].
  rewrite filterActions_flat_map. apply flat_map_ext. intros name.
  apply appendFirst_built.
Qed.

Lemma createActionButtons_unfiltered (env : environ) :
  Getenv env "PLUGIN_BUTTONS" = "" → createActionButtons env = builtActions env.
Proof.
  intros Heq. unfold createActionButtons.
  rewrite getEnvOrDefault_empty_default, Heq.
  by destruct (decide ("" ≠ "")).
Qed.

(** C5, as the code has it: without a tag, a forge URL gives a "View
    Commit" button; with a tag and a repository URL the button is "View
    Release", linking to [{repoURL}/releases/tag/{tag}]; with a tag and no
    repository URL nothing is appended after the pipeline button. *)
Theorem release_or_commit_button (env : environ) :
  let tag := Getenv env "CI_COMMIT_TAG" in
  let repoURL := Getenv env "CI_REPO_URL" in
  let commitURL := Getenv env "CI_PIPELINE_FORGE_URL" in
  let pipelineURL := Getenv env "CI_PIPELINE_URL" in
  let pipelineButton :=
    if decide (pipelineURL ≠ "")
    then [button "View Pipeline" "primary" pipelineURL] else [] in
  (tag = "" → commitURL ≠ "" →
   builtActions env
   = pipelineButton ++ [button "View Commit" "default" commitURL])
  ∧ (tag ≠ "" → repoURL ≠ "" →
     builtActions env
     = pipelineButton
       ++ [button "View Release" "default"
             (repoURL +:+ "/releases/tag/" +:+ tag)])
  ∧ (tag ≠ "" → repoURL = "" → builtActions env = pipelineButton).
Proof.
  intros tag repoURL commitURL pipelineURL pipelineButton.
  unfold builtActions. rewrite !getEnvOrDefault_empty_default.
  fold tag repoURL commitURL pipelineURL. subst pipelineButton.
  split_and!; intros Htag Hurl;
    destruct (decide (pipelineURL ≠ "")); destruct (decide (tag ≠ ""));
    destruct (decide (repoURL ≠ "")); destruct (decide (commitURL ≠ ""));
    done.
Qed.

Lemma release_or_commit_button_witness :
  builtActions Ex.release
  = [button "View Pipeline" "primary" "https://ci.example/repos/1/pipeline/7";
     button "View Release" "default" "https://forge.example/r/releases/tag/v1.0.0"].
Proof.
  etrans.
  - apply (proj1 (proj2 (release_or_commit_button Ex.release)));
      by eval_strings.
  - eval_strings. eval_decide. reflexivity.
Defined.

(** C5 as stated fails: with a tag, a forge URL and no repository URL
    the release rule does not apply, and yet no commit button is built. *)
Lemma tag_without_repo_no_commit_button :
  let env := Ex.tag_without_repo in
  (Getenv env "CI_COMMIT_TAG" = "" ∨ Getenv env "CI_REPO_URL" = "")
  ∧ Getenv env "CI_PIPELINE_FORGE_URL" ≠ ""
  ∧ (button "View Commit" "default" (Getenv env "CI_PIPELINE_FORGE_URL")
     ∉ builtActions env)
  ∧ createActionButtons env = [].
Proof.
  assert (Hbuilt : builtActions Ex.tag_without_repo = []) by by eval_buttons.
  cbv zeta. split_and!.
  - right. by eval_strings.
  - by eval_strings.
  - rewrite Hbuilt. apply not_elem_of_nil.
  - by eval_buttons.
Qed.

(** ** The filter *)

Lemma filter_none {A} (f : A → bool) (l : list A) :
  (∀ x, x ∈ l → f x = false) → List.filter f l = [].
Proof.
  induction l as [|x l IH]; intros H; simpl; [done|].
  rewrite (H x) by apply list_elem_of_here.
  apply IH. intros y Hy. apply H. by apply list_elem_of_further.
Qed.

Lemma elem_of_filter {A} (f : A → bool) (l : list A) (x : A) :
  x ∈ List.filter f l ↔ x ∈ l ∧ f x = true.
Proof. rewrite !list_elem_of_In. apply filter_In. Qed.

Lemma elem_of_flat_map {A B} (f : A → list B) (l : list A) (y : B) :
  y ∈ flat_map f l ↔ ∃ x, x ∈ l ∧ y ∈ f x.
Proof.
  rewrite list_elem_of_In, in_flat_map.
  by setoid_rewrite list_elem_of_In.
Qed.

(** The built button that a name selects is all that the name's filter
    keeps. *)
Lemma filter_selected (env : environ) (name : string)
    (action : gmap string any) :
  action ∈ builtActions env → selects name action = true →
  List.filter (selects name) (builtActions env) = [action].
Proof.
  built_cases env; rewrite ?elem_of_app, ?list_elem_of_singleton, ?elem_of_nil;
    intros Hin Hsel; destruct_or?; subst; try done; simpl; button_bools.
Qed.

(** C4, as the code has it: under a non-empty allow-list the result is
    the concatenation, name by name in the order of the allow-list, of
    the built buttons that the trimmed name selects, at most one per
    name; its members are exactly the built buttons that some requested
    name selects, the members of the order-preserving filter. *)
Theorem filter_follows_allow_list (env : environ) :
  let requestedButtons := Getenv env "PLUGIN_BUTTONS" in
  let names := Go.Split requestedButtons "," in
  requestedButtons ≠ "" →
  createActionButtons env
  = flat_map (fun name =>
                List.filter (selects (Go.TrimSpace name)) (builtActions env))
      names
  ∧ (∀ name,
       (length (List.filter (selects (Go.TrimSpace name)) (builtActions env))
        ≤ 1)%nat)
  ∧ (∀ action,
       action ∈ createActionButtons env
       ↔ action ∈ builtActions env
         ∧ ∃ name, name ∈ names ∧ selects (Go.TrimSpace name) action = true)
  ∧ (∀ action,
       action ∈ createActionButtons env
       ↔ action ∈ Spec.filterInOrder names (builtActions env)).
Proof.
  intros requestedButtons names Hne.
  assert (Hmem : ∀ action,
    action ∈ createActionButtons env
    ↔ action ∈ builtActions env
      ∧ ∃ name, name ∈ names ∧ selects (Go.TrimSpace name) action = true).
  { intros action. rewrite (createActionButtons_filtered env Hne).
    rewrite elem_of_flat_map. setoid_rewrite elem_of_filter.
    fold requestedButtons names. split.
    - intros (name & Hname & Hin & Hsel). eauto.
    - intros (Hin & name & Hname & Hsel). eauto. }
  split_and!.
  - by apply createActionButtons_filtered.
  - intros name. rewrite <- appendFirst_built.
    generalize (builtActions env). intros l.
    induction l as [|a l IH]; simpl; [lia|].
    destruct (selects (Go.TrimSpace name) a); [simpl; lia|done].
  - exact Hmem.
  - intros action. rewrite Hmem. unfold Spec.filterInOrder, Spec.requested.
    rewrite elem_of_filter, existsb_exists.
    by setoid_rewrite list_elem_of_In.
Qed.

Lemma filter_follows_allow_list_witness :
  createActionButtons Ex.reordered
  = [button "View Commit" "default" "https://forge.example/r/commit/abcdef1";
     button "View Pipeline" "primary" "https://ci.example/repos/1/pipeline/7"].
Proof.
  etrans.
  - apply (filter_follows_allow_list Ex.reordered). by eval_strings.
  - by eval_buttons.
Defined.

Lemma swap_not_sublist {A} (x y : A) :
  x ≠ y → ¬ [x; y] `sublist_of` [y; x].
Proof.
  intros Hne [H|(l' & Heq & _)]%sublist_cons_r.
  - apply sublist_length in H. simpl in H. lia.
  - by injection Heq.
Qed.

Lemma cons_ne {A} (x y : A) (l k : list A) : x ≠ y → x :: l ≠ y :: k.
Proof. intros Hne Heq. by injection Heq. Qed.

Lemma commit_button_ne_pipeline_button (u v : string) :
  button "View Commit" "default" u ≠ button "View Pipeline" "primary" v.
Proof.
  intros H. apply (f_equal (selects "commit")) in H.
  rewrite !selects_button, nameSelects_commit, nameSelects_pipeline in H.
  by rewrite bool_decide_eq_true_2, bool_decide_eq_false_2 in H by done.
Qed.

Lemma reordered_built :
  builtActions Ex.reordered
  = [button "View Pipeline" "primary" "https://ci.example/repos/1/pipeline/7";
     button "View Commit" "default" "https://forge.example/r/commit/abcdef1"].
Proof. by eval_buttons. Qed.

Lemma reordered_filtered :
  createActionButtons Ex.reordered
  = [button "View Commit" "default" "https://forge.example/r/commit/abcdef1";
     button "View Pipeline" "primary" "https://ci.example/repos/1/pipeline/7"].
Proof. by eval_buttons. Qed.

(** C4 as stated fails: asked for ["commit,pipeline"], the filter puts
    the commit button before the pipeline button, so the result is not a
    subsequence of the built list, and is not the order-preserving
    filter. *)
Lemma filter_not_in_built_order :
  let env := Ex.reordered in
  Getenv env "PLUGIN_BUTTONS" ≠ ""
  ∧ ¬ createActionButtons env `sublist_of` builtActions env
  ∧ createActionButtons env
    ≠ Spec.filterInOrder (Go.Split (Getenv env "PLUGIN_BUTTONS") ",")
        (builtActions env).
Proof.
  cbv zeta. split_and!.
  - by eval_strings.
  - rewrite reordered_filtered, reordered_built.
    apply swap_not_sublist, commit_button_ne_pipeline_button.
  - rewrite reordered_filtered, reordered_built.
    unfold Spec.filterInOrder, Spec.requested. eval_buttons.
    apply cons_ne, commit_button_ne_pipeline_button.
Qed.

(** The example of the specification: asking for the pipeline button
    when only a commit button was built gives no button. *)
Example filter_unmatched_name :
  builtActions Ex.only_commit
  = [button "View Commit" "default" "https://forge.example/r/commit/abcdef1"]
  ∧ createActionButtons Ex.only_commit = [].
Proof. split; by eval_buttons. Qed.

(** What one name of the allow-list contributes to the buttons that
    [name] selects: the button itself when the trimmed name is [name],
    nothing otherwise. *)
Lemma filter_contribution (env : environ) (name n : string)
    (action : gmap string any) :
  action ∈ builtActions env → selects name action = true →
  List.filter (selects name)
    (List.filter (selects (Go.TrimSpace n)) (builtActions env))
  = if bool_decide (Go.TrimSpace n = name) then [action] else [].
Proof.
  intros Hin Hsel. case_bool_decide as Hn.
  - rewrite Hn, (filter_selected env name action Hin Hsel). simpl.
    by rewrite Hsel.
  - apply filter_none. intros b [Hb Hnb]%elem_of_filter.
    destruct (selects name b) eqn:Hname; [|done].
    destruct Hn. by apply (selects_one_name env _ _ b).
Qed.

(** C9: when the allow-list is not empty, the result holds a built
    button once for each occurrence, in the allow-list, of the name that
    selects it; with the pipeline button named twice the result is longer
    than the built list. *)
Theorem repeated_name_repeats_button :
  (∀ (env : environ) (name : string) (action : gmap string any),
     Getenv env "PLUGIN_BUTTONS" ≠ "" →
     action ∈ builtActions env → selects name action = true →
     List.filter (selects name) (createActionButtons env)
     = replicate
         (length (List.filter (fun n => bool_decide (Go.TrimSpace n = name))
                    (Go.Split (Getenv env "PLUGIN_BUTTONS") ",")))
         action)
  ∧ (length (builtActions Ex.repeated)
     < length (createActionButtons Ex.repeated))%nat.
Proof.
  split; [|eval_buttons; simpl; lia].
  intros env name action Hne Hin Hsel.
  rewrite (createActionButtons_filtered env Hne).
  induction (Go.Split (Getenv env "PLUGIN_BUTTONS") ",") as [|n names IH];
    simpl; [done|].
  rewrite List.filter_app, IH, (filter_contribution env name n action Hin Hsel).
  by case_bool_decide.
Qed.

Lemma repeated_name_repeats_button_witness :
  let pipeline :=
    button "View Pipeline" "primary" "https://ci.example/repos/1/pipeline/7" in
  createActionButtons Ex.repeated = [pipeline; pipeline]
  ∧ List.filter (selects "pipeline") (createActionButtons Ex.repeated)
    = [pipeline; pipeline].
Proof.
  cbv zeta. split; [by eval_buttons|].
  etrans.
  - apply (proj1 repeated_name_repeats_button Ex.repeated "pipeline"
             (button "View Pipeline" "primary"
                "https://ci.example/repos/1/pipeline/7")).
    + by eval_strings.
    + eval_buttons. apply list_elem_of_here.
    + by rewrite selects_button, nameSelects_pipeline.
  - by eval_strings.
Defined.

(** ** The signature *)

Lemma be_bytes_length (n : nat) (x : Z) : length (SHA256.be_bytes n x) = n.
Proof.
  unfold SHA256.be_bytes. by rewrite length_fmap, length_rev, length_seq.
Qed.

Lemma Sum256_length (msg : list Z) : length (SHA256.Sum256 msg) = 32%nat.
Proof.
  unfold SHA256.Sum256.
  destruct (SHA256.blocks _ _ _) as [[[[[[[a b] c] d] e] f] g] h].
  unfold SHA256.digest. by rewrite !length_app, !be_bytes_length.
Qed.

(** The encoding of 32 bytes has 44 characters. *)
Lemma EncodeToString_32 (src : list Z) :
  length src = 32%nat → String.length (Base64.EncodeToString src) = 44%nat.
Proof.
  intros Hlen.
  do 32 (destruct src as [|? src]; [discriminate Hlen|]).
  destruct src; [reflexivity|discriminate Hlen].
Qed.

Lemma zip_with_replicate {A B C} (f : A → B → C) (l : list A) (x : B) :
  zip_with f l (replicate (length l) x) = (fun a => f a x) <$> l.
Proof. induction l as [|a l IH]; simpl; [done|by rewrite IH]. Qed.

Lemma zip_with_replicate_n {A B C} (f : A → B → C) (l : list A) (x : B)
    (n : nat) :
  length l = n → zip_with f l (replicate n x) = (fun a => f a x) <$> l.
Proof. intros <-. apply zip_with_replicate. Qed.

(** The key, once hashed or not, fills exactly one block. *)
Lemma blockKey_length (key : list Z) : length (Spec.blockKey key) = 64%nat.
Proof.
  unfold Spec.blockKey. destruct (decide (length key ≤ 64)%nat).
  - rewrite length_app, length_replicate. lia.
  - rewrite length_app, length_replicate, Sum256_length. lia.
Qed.

(** The object built by [hmac.New] computes the code of RFC 2104. *)
Lemma hmac_New_Sum (key text : list Z) :
  HMAC.Sum (HMAC.Write (HMAC.New key) text) [] = Spec.HMAC_SHA256 key text.
Proof.
  unfold HMAC.Sum, HMAC.Write, HMAC.New, Spec.HMAC_SHA256.
  cbn [HMAC.ipad HMAC.opad HMAC.written app].
  rewrite !(zip_with_replicate_n _ _ _ _ (blockKey_length key)).
  unfold Spec.blockKey, SHA256.BlockSize.
  destruct (decide (64 < length key)%nat), (decide (length key ≤ 64)%nat);
    first [lia|reflexivity].
Qed.

(** C2: the signature is the Base64 standard encoding of the HMAC-SHA256
    code computed with the key [timestamp + "
" + secret] over the empty
    message; equal inputs give equal signatures; the signature has 44
    characters and so is never empty. *)
Theorem generateSignature_spec (timestamp secret : string) :
  generateSignature timestamp secret = Spec.sign timestamp secret
  ∧ (∀ timestamp' secret',
       timestamp' = timestamp → secret' = secret →
       generateSignature timestamp' secret'
       = generateSignature timestamp secret)
  ∧ String.length (generateSignature timestamp secret) = 44%nat
  ∧ generateSignature timestamp secret ≠ "".
Proof.
  assert (Hlen : String.length (generateSignature timestamp secret) = 44%nat).
  { unfold generateSignature, HMAC.Sum. rewrite app_nil_l.
    apply EncodeToString_32, Sum256_length. }
  split_and!.
  - unfold generateSignature, Spec.sign. f_equal.
    rewrite <- hmac_New_Sum. reflexivity.
  - by intros ? ? -> ->.
  - exact Hlen.
  - intros Heq. by rewrite Heq in Hlen.
Qed.

Lemma generateSignature_spec_witness :
  generateSignature "1700000000" "test_secret"
  = "gg67k4NhGu87ukJvWeSIgT+qsHbI+eWjbPP+KE/Nq6M=".
Proof.
  etrans.
  - apply (proj1 (proj2 (generateSignature_spec "1700000000" "test_secret"))
             "1700000000" "test_secret"); reflexivity.
  - vm_compute. reflexivity.
Defined.

(** The model of SHA-256, HMAC and Base64 on published test vectors:
    the digest of ["abc"] (FIPS 180-4) and test case 2 of RFC 4231. *)
Example Sum256_abc :
  SHA256.Sum256 (bytes_of "abc")
  = [0xba; 0x78; 0x16; 0xbf; 0x8f; 0x01; 0xcf; 0xea; 0x41; 0x41; 0x40; 0xde;
     0x5d; 0xae; 0x22; 0x23; 0xb0; 0x03; 0x61; 0xa3; 0x96; 0x17; 0x7a; 0x9c;
     0xb4; 0x10; 0xff; 0x61; 0xf2; 0x00; 0x15; 0xad].
Proof. vm_compute. reflexivity. Qed.

Example hmac_rfc4231_case2 :
  Spec.HMAC_SHA256 (bytes_of "Jefe") (bytes_of "what do ya want for nothing?")
  = [0x5b; 0xdc; 0xc1; 0x46; 0xbf; 0x60; 0x75; 0x4e; 0x6a; 0x04; 0x24; 0x26;
     0x08; 0x95; 0x75; 0xc7; 0x5a; 0x00; 0x3f; 0x08; 0x9d; 0x27; 0x39; 0x83;
     0x9d; 0xec; 0x58; 0xb9; 0x64; 0xec; 0x38; 0x43].
Proof. vm_compute. reflexivity. Qed.

(** ** Delivery *)

(** The outcome of [sendMessage] in one equation. *)
Lemma sendMessage_eq (Unmarshal : string → option (gmap string any))
    (Post : string → string → option Response)
    (webhookURL messageBytes : string) :
  sendMessage Unmarshal Post webhookURL messageBytes
  = match Post webhookURL messageBytes with
    | Some resp =>
        if bool_decide (StatusCode resp = 200)
           && negb (Spec.rejected (Unmarshal (Body resp)))
        then Ret () else Exit 1
    | None => Exit 1
    end.
Proof.
  unfold sendMessage, Spec.rejected, StatusOK.
  destruct (Post webhookURL messageBytes) as [resp|]; [|done].
  destruct (decide (StatusCode resp ≠ 200)) as [Hne|Heq].
  { by rewrite (bool_decide_eq_false_2 _ Hne). }
  apply dec_stable in Heq. rewrite (bool_decide_eq_true_2 _ Heq).
  destruct (Unmarshal (Body resp)) as [response|]; [|done].
  destruct (response !! "code") as [[| |code| | |]|]; try done.
  by destruct (code =? 0)%float.
Qed.

(** C1, as the code has it: [sendMessage] returns exactly when the
    transport succeeds, the status is 200 and the decoded body holds no
    non-zero numeric [code]; in every other case it exits with status 1.
    So every status other than 200 is an error, and a body that does not
    decode, under status 200, is a success. *)
Theorem sendMessage_success (Unmarshal : string → option (gmap string any))
    (Post : string → string → option Response)
    (webhookURL messageBytes : string) :
  let result := sendMessage Unmarshal Post webhookURL messageBytes in
  (result = Ret ()
   ↔ ∃ resp, Post webhookURL messageBytes = Some resp
             ∧ StatusCode resp = 200
             ∧ Spec.rejected (Unmarshal (Body resp)) = false)
  ∧ (result = Ret () ∨ result = Exit 1)
  ∧ (∀ resp, Post webhookURL messageBytes = Some resp →
             StatusCode resp ≠ 200 → result = Exit 1)
  ∧ (∀ resp, Post webhookURL messageBytes = Some resp →
             StatusCode resp = 200 → Unmarshal (Body resp) = None →
             result = Ret ()).
Proof.
  intros result. subst result. rewrite sendMessage_eq.
  destruct (Post webhookURL messageBytes) as [resp|].
  - destruct (decide (StatusCode resp = 200)) as [Hs|Hs].
    + rewrite (bool_decide_eq_true_2 _ Hs).
      destruct (Spec.rejected (Unmarshal (Body resp))) eqn:Hr; simpl.
      * split_and!.
        -- split; [done|]. intros (resp' & [= <-] & _ & Hr'). congruence.
        -- by right.
        -- by intros resp' [= <-] Hne.
        -- intros resp' [= <-] _ Hnone. by rewrite Hnone in Hr.
      * split_and!.
        -- split; [|done]. intros _. by exists resp.
        -- by left.
        -- by intros resp' [= <-] Hne.
        -- done.
    + rewrite (bool_decide_eq_false_2 _ Hs). simpl. split_and!.
      * split; [done|]. by intros (resp' & [= <-] & Hs' & _).
      * by right.
      * done.
      * by intros resp' [= <-] Hs'.
  - split_and!.
    + split; [done|]. by intros (resp' & Hr & _).
    + by right.
    + done.
    + done.
Qed.

Lemma sendMessage_success_witness :
  sendMessage Ex.decode (Ex.answers (mkResponse 200 Ex.successBody))
    "https://open.feishu.cn/hook" "{}"
  = Ret ().
Proof.
  apply (proj1 (sendMessage_success Ex.decode
                  (Ex.answers (mkResponse 200 Ex.successBody))
                  "https://open.feishu.cn/hook" "{}")).
  exists (mkResponse 200 Ex.successBody).
  split_and!; reflexivity.
Defined.

(** C1 as stated fails: status 201 is a 2xx status and the body holds no
    non-zero code, and yet [sendMessage] exits with status 1. *)
Lemma status_201_is_an_error :
  let resp := mkResponse 201 Ex.successBody in
  Spec.is2xx (StatusCode resp) = true
  ∧ Spec.rejected (Ex.decode (Body resp)) = false
  ∧ sendMessage Ex.decode (Ex.answers resp) "https://open.feishu.cn/hook" "{}"
    = Exit 1.
Proof. split_and!; reflexivity. Qed.

(** The examples of the specification: status 200 with code 0 returns;
    status 400, and status 200 with a non-zero code, exit with status 1. *)
Example sendMessage_examples :
  sendMessage Ex.decode (Ex.answers (mkResponse 200 Ex.successBody)) "u" "m"
  = Ret ()
  ∧ sendMessage Ex.decode (Ex.answers (mkResponse 400 Ex.rejectedBody)) "u" "m"
    = Exit 1
  ∧ sendMessage Ex.decode (Ex.answers (mkResponse 200 Ex.rejectedBody)) "u" "m"
    = Exit 1
  ∧ sendMessage Ex.decode (Ex.answers (mkResponse 200 "ok")) "u" "m" = Ret ().
Proof. split_and!; reflexivity. Qed.

(** Once the message is built and serialised, the outcome of [main] is
    the outcome of the delivery. *)
Lemma main_sends (Marshal : gmap string any → option string)
    (Unmarshal : string → option (gmap string any))
    (Post : string → string → option Response) (now : Z) (env : environ)
    (message : gmap string any) (messageBytes : string) :
  Getenv env "PLUGIN_WEBHOOK_URL" ≠ "" →
  signedMessage now env = Ret message →
  Marshal message = Some messageBytes →
  main Marshal Unmarshal Post now env
  = sendMessage Unmarshal Post (Getenv env "PLUGIN_WEBHOOK_URL") messageBytes.
Proof.
  intros Hurl Hmsg Hbytes. unfold main.
  rewrite getEnvOrDefault_empty_default, Hmsg. simpl. rewrite Hbytes.
  destruct (decide (Getenv env "PLUGIN_WEBHOOK_URL" = "")); [done|].
  by destruct (decide (Getenv env "PLUGIN_WEBHOOK_URL" ≠ "")).
Qed.

(** ** Empty and unset variables *)

(** Every function reads the environment through [Getenv] only: two
    environments with the same lookups give the same results. *)
Section SameLookups.

Variables env1 env2 : environ.
Hypothesis same : ∀ key, Getenv env1 key = Getenv env2 key.

Lemma getEnvOrDefault_same (key defaultValue : string) :
  getEnvOrDefault env1 key defaultValue = getEnvOrDefault env2 key defaultValue.
Proof. unfold getEnvOrDefault. by rewrite same. Qed.

Ltac same_lookups := rewrite ?getEnvOrDefault_same; try reflexivity.

Lemma getProjectVersion_same : getProjectVersion env1 = getProjectVersion env2.
Proof. unfold getProjectVersion. same_lookups. Qed.

Lemma buildStatus_same : buildStatus env1 = buildStatus env2.
Proof. unfold buildStatus. same_lookups. Qed.

Lemma commitFirstLine_same : commitFirstLine env1 = commitFirstLine env2.
Proof. unfold commitFirstLine. same_lookups. Qed.

Lemma variableLines_same (line : string → string → string)
    (start variables : string) :
  variableLines env1 line start variables
  = variableLines env2 line start variables.
Proof.
  unfold variableLines. generalize (Go.Split variables ","). intros l.
  revert start; induction l as [|x l IH]; intros start; simpl; [done|].
  by rewrite getEnvOrDefault_same, IH.
Qed.

Lemma createActionButtons_same :
  createActionButtons env1 = createActionButtons env2.
Proof. unfold createActionButtons, builtActions. same_lookups. Qed.

Lemma createLarkCard_same (projectVersion : string) :
  createLarkCard env1 projectVersion = createLarkCard env2 projectVersion.
Proof.
  unfold createLarkCard.
  rewrite buildStatus_same, !commitFirstLine_eq, same,
    createActionButtons_same.
  cbn [mbind run_bind].
  rewrite ?getEnvOrDefault_same.
  destruct (decide (buildStatus env2 = "failure"));
    destruct (decide (getEnvOrDefault env2 "PLUGIN_VARIABLES" "" ≠ ""));
    by rewrite ?variableLines_same.
Qed.

Lemma createLarkTextMessage_same (projectVersion : string) :
  createLarkTextMessage env1 projectVersion
  = createLarkTextMessage env2 projectVersion.
Proof.
  unfold createLarkTextMessage.
  rewrite buildStatus_same, !commitFirstLine_eq, same.
  cbn [mbind run_bind].
  rewrite ?getEnvOrDefault_same.
  destruct (decide (buildStatus env2 = "failure"));
    destruct (decide (getEnvOrDefault env2 "PLUGIN_VARIABLES" "" ≠ ""));
    by rewrite ?variableLines_same.
Qed.

Lemma signedMessage_same (now : Z) :
  signedMessage now env1 = signedMessage now env2.
Proof.
  unfold signedMessage. rewrite getProjectVersion_same.
  destruct (getProjectVersion env2) as [projectVersion| |]; simpl; [|done..].
  by rewrite createLarkCard_same, createLarkTextMessage_same,
    !getEnvOrDefault_same.
Qed.

Lemma main_same (Marshal : gmap string any → option string)
    (Unmarshal : string → option (gmap string any))
    (Post : string → string → option Response) (now : Z) :
  main Marshal Unmarshal Post now env1 = main Marshal Unmarshal Post now env2.
Proof. unfold main. by rewrite signedMessage_same, !getEnvOrDefault_same. Qed.

End SameLookups.

Lemma Getenv_insert_empty (env : environ) (key k : string) :
  Getenv (<[key := ""]> env) k = Getenv (delete key env) k.
Proof.
  unfold Getenv. destruct (decide (key = k)) as [->|Hne].
  - by rewrite lookup_insert_eq, lookup_delete_eq.
  - by rewrite lookup_insert_ne, lookup_delete_ne.
Qed.

Lemma Getenv_insert_eq (env : environ) (key value : string) :
  Getenv (<[key := value]> env) key = value.
Proof. unfold Getenv. by rewrite lookup_insert_eq. Qed.

Lemma getEnvOrDefault_insert_empty (env : environ) (key defaultValue : string) :
  getEnvOrDefault (<[key := ""]> env) key defaultValue = defaultValue.
Proof.
  unfold getEnvOrDefault. rewrite Getenv_insert_eq. by destruct (decide ("" ≠ "")).
Qed.

Lemma getEnvOrDefault_delete (env : environ) (key defaultValue : string) :
  getEnvOrDefault (delete key env) key defaultValue = defaultValue.
Proof.
  rewrite <- (getEnvOrDefault_same _ _ (Getenv_insert_empty env key)).
  apply getEnvOrDefault_insert_empty.
Qed.

(** The top-level keys of the two messages. *)
Lemma createLarkCard_keys (env : environ) (projectVersion : string) :
  ∃ card,
    createLarkCard env projectVersion = Ret card
    ∧ card !! "msg_type" = Some (AString "interactive")
    ∧ card !! "sign" = None ∧ card !! "timestamp" = None.
Proof.
  unfold createLarkCard. rewrite commitFirstLine_eq.
  destruct (decide (buildStatus env = "failure"));
    cbn [mbind run_bind mret run_ret]; eexists; split_and!; reflexivity.
Qed.

Lemma createLarkTextMessage_keys (env : environ) (projectVersion : string) :
  ∃ message,
    createLarkTextMessage env projectVersion = Ret message
    ∧ message !! "msg_type" = Some (AString "text")
    ∧ message !! "sign" = None ∧ message !! "timestamp" = None.
Proof.
  rewrite createLarkTextMessage_parts. eexists; split_and!; reflexivity.
Qed.

(** C10: a variable set to the empty string is read as an unset one, the
    default taking its place, and the whole run cannot tell the two
    apart.  With [PLUGIN_USE_CARD] empty the message is a card; with
    [PLUGIN_SECRET] empty it carries neither [sign] nor [timestamp]; with
    [PLUGIN_WEBHOOK_URL] empty or unset the run exits with status 1. *)
Theorem empty_is_unset :
  (∀ (env : environ) (key defaultValue : string),
     getEnvOrDefault (<[key := ""]> env) key defaultValue = defaultValue
     ∧ getEnvOrDefault (delete key env) key defaultValue = defaultValue)
  ∧ (∀ Marshal Unmarshal Post now (env : environ) (key : string),
       main Marshal Unmarshal Post now (<[key := ""]> env)
       = main Marshal Unmarshal Post now (delete key env))
  ∧ (∀ now (env : environ) (projectVersion : string),
       let env' := <["PLUGIN_USE_CARD" := ""]> env in
       getProjectVersion env' = Ret projectVersion →
       ∃ message,
         signedMessage now env' = Ret message
         ∧ message !! "msg_type" = Some (AString "interactive"))
  ∧ (∀ now (env : environ) (projectVersion : string),
       let env' := <["PLUGIN_SECRET" := ""]> env in
       getProjectVersion env' = Ret projectVersion →
       ∃ message,
         signedMessage now env' = Ret message
         ∧ message !! "sign" = None ∧ message !! "timestamp" = None)
  ∧ (∀ Marshal Unmarshal Post now (env : environ),
       main Marshal Unmarshal Post now (<["PLUGIN_WEBHOOK_URL" := ""]> env)
       = Exit 1
       ∧ main Marshal Unmarshal Post now (delete "PLUGIN_WEBHOOK_URL" env)
         = Exit 1).
Proof.
  split_and!.
  - intros env key d. split;
      [apply getEnvOrDefault_insert_empty|apply getEnvOrDefault_delete].
  - intros Marshal Unmarshal Post now env key.
    apply main_same, Getenv_insert_empty.
  - intros now env projectVersion env' Hversion.
    assert (Hmode : getEnvOrDefault env' "PLUGIN_USE_CARD" "true" = "true")
      by apply getEnvOrDefault_insert_empty.
    unfold signedMessage. rewrite Hversion, Hmode. cbn [mbind run_bind].
    rewrite bool_decide_eq_true_2 by done.
    destruct (createLarkCard_keys env' projectVersion)
      as (card & -> & Htype & _). cbn [mbind run_bind mret run_ret].
    destruct (decide (getEnvOrDefault env' "PLUGIN_SECRET" "" ≠ ""));
      eexists; (split; [reflexivity|]); [|done].
    by rewrite !lookup_insert_ne.
  - intros now env projectVersion env' Hversion.
    assert (Hsecret : getEnvOrDefault env' "PLUGIN_SECRET" "" = "")
      by apply getEnvOrDefault_insert_empty.
    unfold signedMessage. rewrite Hversion, Hsecret. cbn [mbind run_bind].
    destruct (decide ("" ≠ "")) as [|_]; [done|].
    destruct (createLarkCard_keys env' projectVersion)
      as (card & -> & _ & Hcard).
    destruct (createLarkTextMessage_keys env' projectVersion)
      as (text & -> & _ & Htext).
    destruct (bool_decide _); cbn [mbind run_bind mret run_ret];
      eexists; (split; [reflexivity|]); done.
  - intros Marshal Unmarshal Post now env.
    assert (H : main Marshal Unmarshal Post now
                  (<["PLUGIN_WEBHOOK_URL" := ""]> env) = Exit 1).
    { unfold main. rewrite getEnvOrDefault_insert_empty.
      by destruct (decide ("" = "")). }
    split; [exact H|].
    rewrite <- H. symmetry. apply main_same, Getenv_insert_empty.
Qed.

Lemma empty_is_unset_witness :
  let env : environ :=
    <["PLUGIN_SECRET" := ""]> {[ "CI_COMMIT_SHA" := "abcdef1234567890";
                                 "PLUGIN_USE_CARD" := "false" ]} in
  ∃ message,
    signedMessage 1700000000 env = Ret message
    ∧ message !! "sign" = None ∧ message !! "timestamp" = None.
Proof.
  apply (proj1 (proj2 (proj2 (proj2 empty_is_unset))) 1700000000
           {[ "CI_COMMIT_SHA" := "abcdef1234567890";
              "PLUGIN_USE_CARD" := "false" ]} "abcdef1").
  reflexivity.
Defined.

(** For contrast: a secret that is set adds the two fields, and a
    [PLUGIN_USE_CARD] other than ["true"] gives a text message. *)
Example secret_and_text_mode :
  let env : environ :=
    {[ "CI_COMMIT_SHA" := "abcdef1234567890"; "PLUGIN_USE_CARD" := "false";
       "PLUGIN_SECRET" := "test_secret" ]} in
  ∃ message,
    signedMessage 1700000000 env = Ret message
    ∧ message !! "msg_type" = Some (AString "text")
    ∧ message !! "timestamp" = Some (AString "1700000000")
    ∧ message !! "sign"
      = Some (AString "gg67k4NhGu87ukJvWeSIgT+qsHbI+eWjbPP+KE/Nq6M=").
Proof.
  cbv zeta. unfold signedMessage.
  eval_term (getProjectVersion
               {[ "CI_COMMIT_SHA" := "abcdef1234567890";
                  "PLUGIN_USE_CARD" := "false";
                  "PLUGIN_SECRET" := "test_secret" ]}).
  cbn [mbind run_bind]. eval_strings. eval_decide.
  eval_term (Go.FormatInt 1700000000).
  eval_term (generateSignature "1700000000" "test_secret").
  match goal with
  | |- context [createLarkTextMessage ?e ?v] =>
      destruct (createLarkTextMessage_keys e v) as (text & -> & Htype & _)
  end.
  cbn [mbind run_bind mret run_ret]. eexists. split; [reflexivity|].
  split_and!.
  - by rewrite !lookup_insert_ne.
  - by rewrite lookup_insert_ne, lookup_insert_eq.
  - by rewrite lookup_insert_eq.
Qed.

(** ** The commit message, continued *)

Lemma Getenv_insert_ne (env : environ) (key k value : string) :
  key ≠ k → Getenv (<[key := value]> env) k = Getenv env k.
Proof. intros Hne. unfold Getenv. by rewrite lookup_insert_ne. Qed.

(** Two environments that differ in the commit message only, and there
    only after the first line, when no variables block is asked for. *)
Section SameButMessage.

Variables env1 env2 : environ.
Hypothesis other_keys :
  ∀ key, key ≠ "CI_COMMIT_MESSAGE" → Getenv env1 key = Getenv env2 key.
Hypothesis first_line :
  Spec.beforeNewline (Getenv env1 "CI_COMMIT_MESSAGE")
  = Spec.beforeNewline (Getenv env2 "CI_COMMIT_MESSAGE").
Hypothesis no_variables : Getenv env2 "PLUGIN_VARIABLES" = "".

Lemma getEnvOrDefault_but_message (key defaultValue : string) :
  key ≠ "CI_COMMIT_MESSAGE" →
  getEnvOrDefault env1 key defaultValue = getEnvOrDefault env2 key defaultValue.
Proof. intros Hkey. unfold getEnvOrDefault. by rewrite other_keys. Qed.

Ltac but_message := rewrite ?getEnvOrDefault_but_message by discriminate.

Lemma buildStatus_but_message : buildStatus env1 = buildStatus env2.
Proof. unfold buildStatus. by but_message. Qed.

Lemma createActionButtons_but_message :
  createActionButtons env1 = createActionButtons env2.
Proof. unfold createActionButtons, builtActions. by but_message. Qed.

Lemma commitFirstLine_but_message : commitFirstLine env1 = commitFirstLine env2.
Proof. by rewrite !commitFirstLine_eq, first_line. Qed.

Lemma no_variables_default : getEnvOrDefault env2 "PLUGIN_VARIABLES" "" = "".
Proof. by rewrite getEnvOrDefault_empty_default. Qed.

Lemma createLarkCard_but_message (projectVersion : string) :
  createLarkCard env1 projectVersion = createLarkCard env2 projectVersion.
Proof.
  unfold createLarkCard.
  rewrite buildStatus_but_message, commitFirstLine_but_message,
    createActionButtons_but_message.
  but_message. rewrite no_variables_default.
  destruct (decide ("" ≠ "")) as [[]|]; reflexivity.
Qed.

Lemma createLarkTextMessage_but_message (projectVersion : string) :
  createLarkTextMessage env1 projectVersion
  = createLarkTextMessage env2 projectVersion.
Proof.
  unfold createLarkTextMessage.
  rewrite buildStatus_but_message, commitFirstLine_but_message.
  but_message. rewrite no_variables_default.
  destruct (decide ("" ≠ "")) as [[]|]; reflexivity.
Qed.

End SameButMessage.

(** What follows the first newline has no effect on either message: two
    commit messages with the same first line give the same card and the
    same text, as long as the variables block is not asked to print
    [CI_COMMIT_MESSAGE] itself (here: no variables block). *)
Lemma commit_message_rest_dropped (env : environ)
    (projectVersion other : string) :
  Spec.beforeNewline other
  = Spec.beforeNewline (Getenv env "CI_COMMIT_MESSAGE") →
  Getenv env "PLUGIN_VARIABLES" = "" →
  let env' := <["CI_COMMIT_MESSAGE" := other]> env in
  createLarkCard env' projectVersion = createLarkCard env projectVersion
  ∧ createLarkTextMessage env' projectVersion
    = createLarkTextMessage env projectVersion.
Proof.
  intros Hline Hvars env'. subst env'. split.
  - apply createLarkCard_but_message; [|by rewrite Getenv_insert_eq|done].
    intros k Hk. by apply Getenv_insert_ne.
  - apply createLarkTextMessage_but_message;
      [|by rewrite Getenv_insert_eq|done].
    intros k Hk. by apply Getenv_insert_ne.
Qed.

(** * Further properties *)

(** ** Version resolution, continued *)

Lemma HasPrefix_take_bytes (n : nat) (s : string) :
  Go.HasPrefix s (Go.take_bytes n s) = true.
Proof.
  revert n; induction s as [|c s IH]; intros [|n]; simpl; try done.
  by rewrite Ascii.eqb_refl, IH.
Qed.

Lemma take_bytes_length (n : nat) (s : string) :
  (String.length (Go.take_bytes n s) ≤ n)%nat.
Proof.
  revert n; induction s as [|c s IH]; intros [|n]; simpl; try lia.
  specialize (IH n). lia.
Qed.

(** X1: [getProjectVersion] panics exactly when there is no tag and the
    SHA is not empty and shorter than seven bytes; it never exits; and a
    version returned without a tag is a prefix of the SHA of at most seven
    bytes. *)
Theorem getProjectVersion_outcome (env : environ) :
  let tag := Getenv env "CI_COMMIT_TAG" in
  let sha := Getenv env "CI_COMMIT_SHA" in
  (∀ why,
     getProjectVersion env = Panic why
     ↔ tag = "" ∧ sha ≠ "" ∧ (String.length sha < 7)%nat
       ∧ why = "slice bounds out of range")
  ∧ (∀ code, getProjectVersion env ≠ Exit code)
  ∧ (∀ version,
       getProjectVersion env = Ret version → tag = "" →
       (String.length version ≤ 7)%nat ∧ Go.HasPrefix sha version = true).
Proof.
  intros tag sha. unfold getProjectVersion, Go.slice_to.
  rewrite !getEnvOrDefault_empty_default. fold tag sha.
  destruct (decide (tag ≠ "")) as [Htag|Htag].
  { split_and!; [|done|by intros version _ Heq].
    intros why. split; [done|]. by intros [Heq _]. }
  apply dec_stable in Htag.
  destruct (decide (sha ≠ "")) as [Hsha|Hsha].
  - destruct (decide (7 ≤ String.length sha)%nat) as [Hlen|Hlen].
    + split_and!; [|done|].
      * intros why. split; [done|]. intros (_ & _ & Hlt & _). lia.
      * intros version Heq _.
        assert (version = Go.take_bytes 7 sha) as -> by congruence.
        split; [apply take_bytes_length|apply HasPrefix_take_bytes].
    + split_and!; [|done|done].
      intros why. split.
      * intros [= <-]. split_and!; [done|done|lia|done].
      * by intros (_ & _ & _ & ->).
  - apply dec_stable in Hsha. split_and!; [|done|].
    + intros why. split; [done|]. by intros (_ & Hne & _).
    + intros version [= <-] _. split; [simpl; lia|by destruct sha].
Qed.

(** ** The signature, continued *)

(** X2: the signature depends on the timestamp and the secret only
    through the string that joins them: moving text across the newline,
    from the end of the timestamp to the front of the secret, leaves the
    signature unchanged. *)
Theorem generateSignature_joined (timestamp middle secret : string) :
  generateSignature (timestamp +:+ LF +:+ middle) secret
  = generateSignature timestamp (middle +:+ LF +:+ secret).
Proof. unfold generateSignature. by rewrite !append_assoc. Qed.

(** ** Buttons, continued *)

Lemma button_content (content type url : string) :
  select [Key "text"; Key "content"] (AMap (button content type url))
  = Some (AString content).
Proof. with_strategy transparent [button] reflexivity. Qed.

Lemma button_type (content type url : string) :
  button content type url !! "type" = Some (AString type).
Proof. with_strategy transparent [button] reflexivity. Qed.

Lemma button_url (content type url : string) :
  button content type url !! "url" = Some (AString url).
Proof. with_strategy transparent [button] reflexivity. Qed.

(** A button determines its label, its style and its link. *)
Lemma button_inj (content type url content' type' url' : string) :
  button content type url = button content' type' url' →
  content = content' ∧ type = type' ∧ url = url'.
Proof.
  intros H.
  pose proof (f_equal (fun m => select [Key "text"; Key "content"] (AMap m)) H)
    as Hcontent.
  pose proof (f_equal (lookup "type") H) as Htype.
  pose proof (f_equal (lookup "url") H) as Hurl.
  cbv beta in Hcontent.
  rewrite !button_content in Hcontent.
  rewrite !button_type in Htype. rewrite !button_url in Hurl.
  by simplify_eq.
Qed.

Ltac in_built :=
  rewrite ?elem_of_app, ?list_elem_of_singleton, ?elem_of_nil in *;
  destruct_or?; try done;
  repeat match goal with
         | H : button _ _ _ = button _ _ _ |- _ =>
             apply button_inj in H as (? & ? & ?)
         end;
  simplify_eq; try done.

(** X3: the builder appends at most two buttons, each a pipeline, a
    release or a commit button; a pipeline button comes first; a release
    and a commit button never appear together. *)
Theorem builtActions_at_most_two (env : environ) :
  (length (builtActions env) ≤ 2)%nat
  ∧ (∀ action,
       action ∈ builtActions env →
       ∃ url, action = button "View Pipeline" "primary" url
              ∨ action = button "View Release" "default" url
              ∨ action = button "View Commit" "default" url)
  ∧ (∀ url,
       button "View Pipeline" "primary" url ∈ builtActions env →
       builtActions env !! 0%nat = Some (button "View Pipeline" "primary" url))
  ∧ ¬ (∃ u v,
         button "View Release" "default" u ∈ builtActions env
         ∧ button "View Commit" "default" v ∈ builtActions env).
Proof.
  built_cases env; split_and!.
  all: try (simpl; lia).
  all: try (intros action Hin; in_built; eauto 6).
  all: try (intros (u & v & Hu & Hv); in_built).
Qed.

(** The three names that the filter knows. *)
Lemma nameSelects_known (name content : string) :
  nameSelects name content = true →
  name = "pipeline" ∨ name = "commit" ∨ name = "release".
Proof.
  unfold nameSelects. repeat case_bool_decide; simpl; intros Hsel; auto; done.
Qed.

Lemma selects_known (name : string) (action : gmap string any) :
  selects name action = true →
  name = "pipeline" ∨ name = "commit" ∨ name = "release".
Proof.
  unfold selects.
  destruct (action !! "text") as [[| | | | |text]|]; try done.
  destruct (text !! "content") as [[| | |content| |]|]; try done.
  apply nameSelects_known.
Qed.

Lemma appendFirst_unknown (name : string)
    (actions filtered : list (gmap string any)) :
  ¬ (name = "pipeline" ∨ name = "commit" ∨ name = "release") →
  appendFirst name actions filtered = filtered.
Proof.
  intros Hname. induction actions as [|a actions IH]; simpl; [done|].
  destruct (selects name a) eqn:Hsel; [|done].
  by apply selects_known in Hsel.
Qed.

(** X4: under a non-empty allow-list none of whose trimmed names is
    [pipeline], [commit] or [release] (names are case-sensitive), no
    button is returned, whatever was built. *)
Theorem unknown_names_hide_buttons (env : environ) :
  let requestedButtons := Getenv env "PLUGIN_BUTTONS" in
  requestedButtons ≠ "" →
  Forall (fun name =>
            Go.TrimSpace name ∉ ["pipeline"; "commit"; "release"])
         (Go.Split requestedButtons ",") →
  createActionButtons env = [].
Proof.
  intros requestedButtons Hne Hnames. unfold createActionButtons.
  rewrite getEnvOrDefault_empty_default. fold requestedButtons.
  destruct (decide (requestedButtons ≠ "")); [|done].
  rewrite filterActions_flat_map.
  induction Hnames as [|name names Hname _ IH]; simpl; [done|].
  rewrite IH, app_nil_r. apply appendFirst_unknown.
  intros Hknown. apply Hname.
  rewrite !elem_of_cons. tauto.
Qed.

Lemma unknown_names_hide_buttons_witness :
  let env : environ :=
    {[ "CI_PIPELINE_URL" := "https://ci.example/repos/1/pipeline/7";
       "PLUGIN_BUTTONS" := "Pipeline, all" ]} in
  builtActions env
  = [button "View Pipeline" "primary" "https://ci.example/repos/1/pipeline/7"]
  ∧ createActionButtons env = [].
Proof.
  cbv zeta. split; [by eval_buttons|].
  apply unknown_names_hide_buttons.
  - by eval_strings.
  - eval_strings. repeat constructor; eval_strings;
      rewrite !elem_of_cons, elem_of_nil; intros H; by destruct_or?.
Defined.

(** X5: under a non-empty allow-list the result has at most one button
    per comma-separated name; its length is the number of names that
    select a built button. *)
Theorem filtered_at_most_one_per_name (env : environ) :
  let names := Go.Split (Getenv env "PLUGIN_BUTTONS") "," in
  Getenv env "PLUGIN_BUTTONS" ≠ "" →
  (length (createActionButtons env) ≤ length names)%nat
  ∧ length (createActionButtons env)
    = length (List.filter
                (fun name =>
                   existsb (selects (Go.TrimSpace name)) (builtActions env))
                names).
Proof.
  intros names Hne. unfold createActionButtons.
  rewrite getEnvOrDefault_empty_default.
  destruct (decide (Getenv env "PLUGIN_BUTTONS" ≠ "")); [|done].
  rewrite filterActions_flat_map. fold names.
  generalize (builtActions env) as actions. intros actions.
  assert (Hone : ∀ name,
    length (appendFirst (Go.TrimSpace name) actions [])
    = if existsb (selects (Go.TrimSpace name)) actions then 1%nat else 0%nat).
  { intros name. generalize (Go.TrimSpace name) as trimmed. intros trimmed.
    induction actions as [|a actions IH]; simpl; [done|].
    by destruct (selects trimmed a). }
  induction names as [|name names [IH1 IH2]]; simpl; [done|].
  rewrite length_app, Hone.
  destruct (existsb _ actions); simpl; lia.
Qed.

Lemma filtered_at_most_one_per_name_witness :
  (length (createActionButtons Ex.repeated) ≤ 2)%nat.
Proof.
  etrans.
  - apply (filtered_at_most_one_per_name Ex.repeated). by eval_strings.
  - eval_strings. simpl. lia.
Defined.

(** ** Delivery, continued *)

(** X7: under status 200, a decoded body whose [code] is missing or is
    not a number (a string, a boolean, null) is a success. *)
Theorem sendMessage_code_not_a_number
    (Unmarshal : string → option (gmap string any))
    (Post : string → string → option Response)
    (webhookURL messageBytes : string) (resp : Response)
    (response : gmap string any) :
  Post webhookURL messageBytes = Some resp →
  StatusCode resp = 200 →
  Unmarshal (Body resp) = Some response →
  (∀ code, response !! "code" ≠ Some (AFloat code)) →
  sendMessage Unmarshal Post webhookURL messageBytes = Ret ().
Proof.
  intros HPost Hstatus Hdecoded Hcode.
  rewrite sendMessage_eq, HPost, Hdecoded.
  rewrite (bool_decide_eq_true_2 _ Hstatus). unfold Spec.rejected.
  destruct (response !! "code") as [[| |code| | |]|]; try done.
  by destruct (Hcode code).
Qed.

Lemma sendMessage_code_not_a_number_witness :
  sendMessage (fun _ => Some {[ "code" := AString "19001" ]})
    (Ex.answers (mkResponse 200 Ex.rejectedBody))
    "https://open.feishu.cn/hook" "{}"
  = Ret ().
Proof.
  apply (sendMessage_code_not_a_number _ _ _ _
           (mkResponse 200 Ex.rejectedBody) {[ "code" := AString "19001" ]});
    try reflexivity.
  intros code. by rewrite lookup_singleton_eq.
Defined.

Lemma sendMessage_Ret (Unmarshal : string → option (gmap string any))
    (Post : string → string → option Response)
    (webhookURL messageBytes : string) :
  sendMessage Unmarshal Post webhookURL messageBytes = Ret () →
  ∃ resp, Post webhookURL messageBytes = Some resp
          ∧ StatusCode resp = 200
          ∧ Spec.rejected (Unmarshal (Body resp)) = false.
Proof.
  rewrite sendMessage_eq.
  destruct (Post webhookURL messageBytes) as [resp|]; [|done].
  destruct (decide (StatusCode resp = 200)) as [Hs|Hs].
  - rewrite (bool_decide_eq_true_2 _ Hs).
    destruct (Spec.rejected (Unmarshal (Body resp))) eqn:Hr; [done|].
    intros _. by exists resp.
  - by rewrite (bool_decide_eq_false_2 _ Hs).
Qed.

(** ** The entry point *)

(** Building the message fails only where version resolution fails. *)
Lemma signedMessage_outcome (now : Z) (env : environ) :
  match getProjectVersion env with
  | Ret projectVersion =>
      ∃ unsigned,
        (if bool_decide (getEnvOrDefault env "PLUGIN_USE_CARD" "true" = "true")
         then createLarkCard env projectVersion
         else createLarkTextMessage env projectVersion) = Ret unsigned
        ∧ unsigned !! "sign" = None ∧ unsigned !! "timestamp" = None
        ∧ signedMessage now env
          = Ret (if decide (getEnvOrDefault env "PLUGIN_SECRET" "" ≠ "")
                 then <["sign" := AString
                          (generateSignature (Go.FormatInt now)
                             (getEnvOrDefault env "PLUGIN_SECRET" ""))]>
                        (<["timestamp" := AString (Go.FormatInt now)]> unsigned)
                 else unsigned)
  | Exit code => signedMessage now env = Exit code
  | Panic why => signedMessage now env = Panic why
  end.
Proof.
  unfold signedMessage.
  destruct (getProjectVersion env) as [projectVersion|code|why]; [|done..].
  cbn [mbind run_bind].
  destruct (createLarkCard_keys env projectVersion)
    as (card & Hcard & _ & Hcs & Hct).
  destruct (createLarkTextMessage_keys env projectVersion)
    as (text & Htext & _ & Hts & Htt).
  rewrite Hcard, Htext.
  destruct (bool_decide _); eexists; (split; [reflexivity|]);
    (split; [done|]); (split; [done|]); cbn [mbind run_bind mret run_ret];
    by destruct (decide _).
Qed.

(** X8: when [main] returns (exit status 0) the webhook URL was set, the
    message was built and serialised, and the post of those bytes to that
    URL was answered with status 200 and no rejecting code. *)
Theorem main_success_means_delivered
    (Marshal : gmap string any → option string)
    (Unmarshal : string → option (gmap string any))
    (Post : string → string → option Response) (now : Z) (env : environ) :
  main Marshal Unmarshal Post now env = Ret () →
  ∃ message messageBytes resp,
    Getenv env "PLUGIN_WEBHOOK_URL" ≠ ""
    ∧ signedMessage now env = Ret message
    ∧ Marshal message = Some messageBytes
    ∧ Post (Getenv env "PLUGIN_WEBHOOK_URL") messageBytes = Some resp
    ∧ StatusCode resp = 200
    ∧ Spec.rejected (Unmarshal (Body resp)) = false.
Proof.
  unfold main. rewrite getEnvOrDefault_empty_default.
  destruct (decide (Getenv env "PLUGIN_WEBHOOK_URL" = "")) as [|Hurl]; [done|].
  destruct (signedMessage now env) as [message| |] eqn:Hmessage; [|done..].
  cbn [mbind run_bind].
  destruct (Marshal message) as [messageBytes|] eqn:Hbytes; [|done].
  destruct (decide (Getenv env "PLUGIN_WEBHOOK_URL" ≠ "")); [|done].
  intros Hsent.
  apply sendMessage_Ret in Hsent as (resp & HPost & Hstatus & Hrej).
  by exists message, messageBytes, resp.
Qed.

Lemma main_success_means_delivered_witness :
  let env : environ :=
    {[ "PLUGIN_WEBHOOK_URL" := "https://open.feishu.cn/hook";
       "CI_COMMIT_SHA" := "abcdef1234567890" ]} in
  ∃ message messageBytes resp,
    Getenv env "PLUGIN_WEBHOOK_URL" ≠ ""
    ∧ signedMessage 1700000000 env = Ret message
    ∧ (fun _ : gmap string any => Some "{}") message = Some messageBytes
    ∧ Ex.answers (mkResponse 200 Ex.successBody)
        (Getenv env "PLUGIN_WEBHOOK_URL") messageBytes = Some resp
    ∧ StatusCode resp = 200
    ∧ Spec.rejected (Ex.decode (Body resp)) = false.
Proof.
  cbv zeta.
  apply (main_success_means_delivered (fun _ => Some "{}") Ex.decode
           (Ex.answers (mkResponse 200 Ex.successBody)) 1700000000).
  unfold main. eval_strings. eval_decide.
  match goal with
  | |- context [signedMessage ?now ?env] =>
      pose proof (signedMessage_outcome now env) as H;
      replace (getProjectVersion env) with (@Ret string "abcdef1") in H
        by (vm_compute; reflexivity);
      destruct H as (unsigned & _ & _ & _ & ->)
  end.
  reflexivity.
Defined.

Lemma getProjectVersion_panic_why (env : environ) (why : string) :
  getProjectVersion env = Panic why → why = "slice bounds out of range".
Proof.
  unfold getProjectVersion, Go.slice_to.
  repeat (destruct (decide _); try done). congruence.
Qed.

Lemma sendMessage_Ret_or_Exit (Unmarshal : string → option (gmap string any))
    (Post : string → string → option Response)
    (webhookURL messageBytes : string) :
  sendMessage Unmarshal Post webhookURL messageBytes = Ret ()
  ∨ sendMessage Unmarshal Post webhookURL messageBytes = Exit 1.
Proof.
  rewrite sendMessage_eq.
  destruct (Post webhookURL messageBytes) as [resp|]; [|by right].
  destruct (_ && _); [by left|by right].
Qed.

(** X9: without a webhook URL [main] exits with status 1, before the
    version is resolved; it panics exactly when the URL is set and version
    resolution panics; it never ends in another way than returning,
    exiting with status 1, or that panic. *)
Theorem main_outcome (Marshal : gmap string any → option string)
    (Unmarshal : string → option (gmap string any))
    (Post : string → string → option Response) (now : Z) (env : environ) :
  let result := main Marshal Unmarshal Post now env in
  (Getenv env "PLUGIN_WEBHOOK_URL" = "" → result = Exit 1)
  ∧ (∀ why,
       result = Panic why
       ↔ Getenv env "PLUGIN_WEBHOOK_URL" ≠ ""
         ∧ getProjectVersion env = Panic why)
  ∧ (result = Ret () ∨ result = Exit 1
     ∨ result = Panic "slice bounds out of range").
Proof.
  intros result. subst result. unfold main.
  rewrite getEnvOrDefault_empty_default.
  destruct (decide (Getenv env "PLUGIN_WEBHOOK_URL" = "")) as [Hurl|Hurl].
  { split_and!; [done| |by right; left].
    intros why. split; [done|]. by intros [Hne _]. }
  pose proof (signedMessage_outcome now env) as Hmessage.
  destruct (getProjectVersion env) as [projectVersion|code|why] eqn:Hversion.
  - destruct Hmessage as (unsigned & _ & _ & _ & ->). cbn [mbind run_bind].
    destruct (Marshal _) as [messageBytes|].
    + destruct (decide (Getenv env "PLUGIN_WEBHOOK_URL" ≠ "")); [|done].
      destruct (sendMessage_Ret_or_Exit Unmarshal Post
                  (Getenv env "PLUGIN_WEBHOOK_URL") messageBytes) as [->| ->].
      * split_and!; [done| |by left].
        intros why. split; [done|]. by intros [_ ?].
      * split_and!; [done| |by right; left].
        intros why. split; [done|]. by intros [_ ?].
    + split_and!; [done| |by right; left].
      intros why. split; [done|]. by intros [_ ?].
  - exfalso. revert Hversion. unfold getProjectVersion, Go.slice_to.
    by repeat (destruct (decide _); try done).
  - rewrite Hmessage. cbn [mbind run_bind].
    apply getProjectVersion_panic_why in Hversion as ->.
    split_and!; [done| |by right; right].
    intros why. split; [by intros [= <-]|by intros [_ [= <-]]].
Qed.

(** X10: signing adds the fields [timestamp] and [sign] and changes
    nothing else: without them the message is the card or the text as
    built; with a secret they hold the formatted time and the signature of
    that time under the secret; without a secret the message is left as
    built. *)
Theorem signing_adds_two_fields (now : Z) (env : environ)
    (message : gmap string any) :
  let secret := Getenv env "PLUGIN_SECRET" in
  signedMessage now env = Ret message →
  ∃ projectVersion unsigned,
    getProjectVersion env = Ret projectVersion
    ∧ (createLarkCard env projectVersion = Ret unsigned
       ∨ createLarkTextMessage env projectVersion = Ret unsigned)
    ∧ delete "sign" (delete "timestamp" message) = unsigned
    ∧ (secret ≠ "" →
       message !! "timestamp" = Some (AString (Go.FormatInt now))
       ∧ message !! "sign"
         = Some (AString (generateSignature (Go.FormatInt now) secret)))
    ∧ (secret = "" → message = unsigned).
Proof.
  intros secret Hmessage.
  pose proof (signedMessage_outcome now env) as Houtcome.
  rewrite getEnvOrDefault_empty_default in Houtcome. fold secret in Houtcome.
  destruct (getProjectVersion env) as [projectVersion|code|why];
    [|congruence..].
  destruct Houtcome as (unsigned & Hunsigned & Hsign & Htime & Hsigned).
  rewrite Hsigned in Hmessage. injection Hmessage as <-.
  exists projectVersion, unsigned. split; [done|]. split.
  { destruct (bool_decide _); [by left|by right]. }
  destruct (decide (secret ≠ "")) as [Hsecret|Hsecret].
  - split_and!.
    + rewrite delete_insert_ne by done.
      rewrite (delete_insert_id unsigned "timestamp") by done.
      by rewrite delete_insert_id.
    + intros _. split.
      * by rewrite lookup_insert_ne, lookup_insert_eq.
      * by rewrite lookup_insert_eq.
    + done.
  - split_and!; [|done|done].
    by rewrite (delete_id _ "timestamp"), delete_id.
Qed.

Lemma signing_adds_two_fields_witness :
  let env : environ :=
    {[ "CI_COMMIT_SHA" := "abcdef1234567890";
       "PLUGIN_SECRET" := "test_secret" ]} in
  ∃ message,
    signedMessage 1700000000 env = Ret message
    ∧ message !! "timestamp" = Some (AString "1700000000")
    ∧ message !! "sign"
      = Some (AString "gg67k4NhGu87ukJvWeSIgT+qsHbI+eWjbPP+KE/Nq6M=").
Proof.
  cbv zeta.
  match goal with
  | |- context [signedMessage ?now ?env] =>
      pose proof (signedMessage_outcome now env) as H;
      replace (getProjectVersion env) with (@Ret string "abcdef1") in H
        by (vm_compute; reflexivity);
      destruct H as (unsigned & _ & _ & _ & Hmessage)
  end.
  eexists. split; [exact Hmessage|].
  destruct (signing_adds_two_fields _ _ _ Hmessage)
    as (pv & unsigned' & _ & _ & _ & Hfields & _).
  revert Hfields. eval_strings.
  eval_term (Go.FormatInt 1700000000).
  eval_term (generateSignature "1700000000" "test_secret").
  intros Hfields. by apply Hfields.
Defined.

(** X11: the message is a card exactly when [PLUGIN_USE_CARD] is unset,
    empty or ["true"]; any other value (["TRUE"], ["1"], ["yes"]) gives a
    text message. *)
Theorem message_format (now : Z) (env : environ) (projectVersion : string) :
  let useCard := Getenv env "PLUGIN_USE_CARD" in
  getProjectVersion env = Ret projectVersion →
  ∃ message,
    signedMessage now env = Ret message
    ∧ message !! "msg_type"
      = Some (AString (if decide (useCard = "" ∨ useCard = "true")
                       then "interactive" else "text")).
Proof.
  intros useCard Hversion. unfold signedMessage.
  rewrite Hversion. cbn [mbind run_bind].
  destruct (createLarkCard_keys env projectVersion) as (card & -> & Hcard & _).
  destruct (createLarkTextMessage_keys env projectVersion)
    as (text & -> & Htext & _).
  assert (Hmode : bool_decide (getEnvOrDefault env "PLUGIN_USE_CARD" "true" = "true")
                  = bool_decide (useCard = "" ∨ useCard = "true")).
  { apply bool_decide_ext. unfold getEnvOrDefault. fold useCard. simpl.
    destruct (decide (useCard ≠ "")) as [Hne|Heq].
    - split; [by right|by intros [?|?]].
    - apply dec_stable in Heq. split; [by left|done]. }
  rewrite Hmode.
  destruct (decide (useCard = "" ∨ useCard = "true")) as [Hcard'|Htext'].
  - rewrite (bool_decide_eq_true_2 _ Hcard'). cbn [mbind run_bind].
    destruct (decide (getEnvOrDefault env "PLUGIN_SECRET" "" ≠ ""));
      eexists; (split; [reflexivity|]); [|done].
    by rewrite !lookup_insert_ne.
  - rewrite (bool_decide_eq_false_2 _ Htext'). cbn [mbind run_bind].
    destruct (decide (getEnvOrDefault env "PLUGIN_SECRET" "" ≠ ""));
      eexists; (split; [reflexivity|]); [|done].
    by rewrite !lookup_insert_ne.
Qed.

Lemma message_format_witness :
  let env : environ :=
    {[ "CI_COMMIT_SHA" := "abcdef1234567890"; "PLUGIN_USE_CARD" := "TRUE" ]} in
  ∃ message,
    signedMessage 1700000000 env = Ret message
    ∧ message !! "msg_type" = Some (AString "text").
Proof.
  cbv zeta.
  destruct (message_format 1700000000
              {[ "CI_COMMIT_SHA" := "abcdef1234567890";
                 "PLUGIN_USE_CARD" := "TRUE" ]} "abcdef1")
    as (message & Hmessage & Htype); [by vm_compute|].
  exists message. split; [exact Hmessage|].
  revert Htype. eval_strings. by eval_decide.
Defined.

(** ** The card, continued *)

Lemma div_tag (text : any) :
  ({[ "tag" := AString "div"; "text" := text ]} : gmap string any) !! "tag"
  = Some (AString "div").
Proof. reflexivity. Qed.

Lemma hr_tag :
  ({[ "tag" := AString "hr" ]} : gmap string any) !! "tag"
  = Some (AString "hr").
Proof. reflexivity. Qed.

Lemma action_actions (actions : any) :
  ({[ "tag" := AString "action"; "actions" := actions ]} : gmap string any)
    !! "actions"
  = Some actions.
Proof. reflexivity. Qed.

(** X6: the card has three elements, two more when a variables block is
    asked for, and one more when there are buttons; an element tagged
    [action] occurs only as the last element, only when there are
    buttons, and holds exactly the buttons of [createActionButtons]. *)
Theorem card_elements (env : environ) (projectVersion : string) :
  let actions := createActionButtons env in
  let variables := Getenv env "PLUGIN_VARIABLES" in
  ∃ card elements,
    createLarkCard env projectVersion = Ret card
    ∧ cardElements card = Some (maps elements)
    ∧ length elements
      = (3 + (if decide (variables ≠ "") then 2 else 0)
         + (match actions with [] => 0 | _ => 1 end))%nat
    ∧ (∀ i element,
         elements !! i = Some element →
         element !! "tag" = Some (AString "action") →
         S i = length elements
         ∧ element !! "actions" = Some (maps actions) ∧ actions ≠ [])
    ∧ (actions ≠ [] →
       ∃ element, last elements = Some element
                  ∧ element !! "tag" = Some (AString "action")).
Proof.
  intros actions variables. unfold createLarkCard.
  rewrite commitFirstLine_eq, !getEnvOrDefault_empty_default.
  fold actions variables. cbn [mbind run_bind mret run_ret].
  assert (Hactions : ∀ (T : Type) (x y : T),
    (if decide (0 < length actions)%nat then x else y)
    = match actions with [] => y | _ => x end).
  { intros T x y. by destruct actions. }
  rewrite Hactions.
  destruct (decide (buildStatus env = "failure"));
    destruct (decide (variables ≠ ""));
    destruct actions as [|action rest] eqn:Hlist;
    eexists; eexists;
    (split; [reflexivity|]); (split; [reflexivity|]);
    (split; [reflexivity|]); (split; [|try done]).
  all: try (intros i element Hi Htag;
            do 7 (try destruct i as [|i]); simpl in Hi; simplify_eq;
            rewrite ?div_tag, ?hr_tag in Htag; try done;
            by rewrite action_actions).
  all: intros _; eexists; split; reflexivity.
Qed.

(** ** Splitting on one byte *)

Lemma concat_cons (sep x : string) (l : list string) :
  l ≠ [] → String.concat sep (x :: l) = x +:+ sep +:+ String.concat sep l.
Proof. by destruct l. Qed.

Lemma genSplit_not_nil (sep : string) (skip : nat) (cur s : string) :
  Go.genSplit sep skip cur s ≠ [].
Proof.
  revert skip cur; induction s as [|x s IH]; intros skip cur; simpl; [done|].
  destruct skip; [|apply IH]. by destruct (Go.HasPrefix _ _).
Qed.

Lemma rev_cons_append (x : ascii) (cur s : string) :
  String.rev (String x cur) +:+ s = String.rev cur +:+ String x s.
Proof. unfold String.rev; simpl. by rewrite !rev_app_append. Qed.

Lemma Contains_cons_single (x c : ascii) (s : string) :
  Go.Contains (String x s) (String c "")
  = Ascii.eqb c x || Go.Contains s (String c "").
Proof. cbn [Go.Contains Go.HasPrefix]. by rewrite andb_true_r. Qed.

Lemma Contains_single_app (c : ascii) (a b : string) :
  Go.Contains (a +:+ b) (String c "")
  = Go.Contains a (String c "") || Go.Contains b (String c "").
Proof.
  induction a as [|x a IH]; [done|].
  by rewrite append_cons, !Contains_cons_single, IH, orb_assoc.
Qed.

Lemma rev_cons (x : ascii) (cur : string) :
  String.rev (String x cur) = String.rev cur +:+ String x "".
Proof. by rewrite <- (append_nil_r (String.rev _)), rev_cons_append. Qed.

Lemma genSplit_single (c : ascii) (cur s : string) :
  let pieces := Go.genSplit (String c "") 0 cur s in
  length pieces = S (count_byte c s)
  ∧ String.concat (String c "") pieces = String.rev cur +:+ s
  ∧ (Go.Contains (String.rev cur) (String c "") = false →
     Forall (fun piece => Go.Contains piece (String c "") = false) pieces).
Proof.
  revert cur; induction s as [|x s IH]; intros cur.
  - cbv zeta. simpl. split_and!; [done|by rewrite append_nil_r|].
    intros Hcur. by constructor.
  - cbn [Go.genSplit Go.HasPrefix count_byte String.length Nat.sub].
    rewrite andb_true_r, (Ascii.eqb_sym c x).
    destruct (Ascii.eqb_spec x c) as [->|Hx].
    + destruct (IH "") as (Hlen & Hjoin & Hpieces). split_and!.
      * simpl. by rewrite Hlen.
      * rewrite concat_cons by apply genSplit_not_nil. by rewrite Hjoin.
      * intros Hcur. constructor; [done|]. by apply Hpieces.
    + destruct (IH (String x cur)) as (Hlen & Hjoin & Hpieces). split_and!.
      * done.
      * by rewrite Hjoin, rev_cons_append.
      * intros Hcur. apply Hpieces.
        rewrite rev_cons, Contains_single_app, Hcur, Contains_cons_single.
        rewrite (Ascii.eqb_sym c x).
        by destruct (Ascii.eqb_spec x c).
Qed.

(** X13: splitting on a single byte gives as many pieces as the byte
    occurs plus one, none of which holds the byte, and joining the pieces
    with the byte gives the string back. *)
Theorem Split_single_byte (c : ascii) (s : string) :
  let pieces := Go.Split s (String c "") in
  length pieces = S (count_byte c s)
  ∧ String.concat (String c "") pieces = s
  ∧ Forall (fun piece => Go.Contains piece (String c "") = false) pieces.
Proof.
  destruct (genSplit_single c "" s) as (Hlen & Hjoin & Hpieces).
  split_and!; [done|done|by apply Hpieces].
Qed.

(** ** The variables block *)

(** X12: the variables block holds one entry for each comma-separated
    field of the list, in order: the trimmed name with the value the
    environment has for it, empty when unset; there are as many entries as
    commas plus one. *)
Theorem variableLines_entries (env : environ)
    (line : string → string → string) (start variables : string) :
  let names := Go.TrimSpace <$> Go.Split variables "," in
  variableLines env line start variables
  = start +:+ foldr String.append ""
                ((fun name => line name (Getenv env name)) <$> names)
  ∧ length names = S (count_byte "," variables).
Proof.
  cbv zeta. split.
  - unfold variableLines. generalize (Go.Split variables ","). intros l.
    revert start; induction l as [|name l IH]; intros start; simpl.
    + by rewrite append_nil_r.
    + by rewrite IH, append_assoc, getEnvOrDefault_empty_default.
  - rewrite length_fmap. apply (genSplit_single "," "" variables).
Qed.

(** ** What the text message reads *)



